(** * HexagonLayer: the instanced-geometry update pipeline

    A shallow embedding of [src/layers/hexagon-layer/index.js] and the
    properties of its update pass.

    JavaScript numbers are IEEE 754 binary64 values, so they are modelled by
    Rocq's primitive floats: [+], [-], [*], [/] and [Math.sqrt] are the
    correctly rounded operations of [PrimFloat].  [Math.acos] is left to the
    host by ECMAScript ("implementation-approximated"), so the model takes it
    as a parameter and the theorems assume only what ECMAScript fixes.

    The layer object is a record.  The open-ended JS objects [uniforms] and
    [attributes] are finite maps keyed by property name.  A method of the
    class is a function from the layer to a completion: it either returns
    normally with the mutated layer or throws, leaving the layer as mutated
    so far. *)

From Stdlib Require Import ZArith Floats Bool Lia.
From stdpp Require Import base option list strings gmap.

(** ** JavaScript numbers and typed arrays *)
Module JS.

Local Open Scope float_scope.

(** [Math.PI], the double nearest to pi. *)
Definition Math_PI : float := 0x1.921fb54442d18p+1.

Definition is_neg_zero (x : float) : bool :=
  match classify x with NZero => true | _ => false end.

Definition is_pos_zero (x : float) : bool :=
  match classify x with PZero => true | _ => false end.

(** [Math.sign(x)]: NaN, +0 and -0 are returned as they are. *)
Definition Math_sign (x : float) : float :=
  if is_nan x then x
  else if x =? 0 then x
  else if x <? 0 then -1
  else 1.

(** [Math.min(...args)]: NaN if any argument is NaN; otherwise the lowest
    argument, starting from +Infinity, with -0 below +0. *)
Definition Math_min (args : list float) : float :=
  if existsb is_nan args then nan
  else
    foldl (fun lowest number =>
             if is_neg_zero number && is_pos_zero lowest then number
             else if number <? lowest then number
             else lowest)
          infinity args.

Definition Math_sqrt : float -> float := sqrt.

(** [ToNumber] on a property read that may have produced [undefined]. *)
Definition ToNumber (v : option float) : float := default nan v.

(** [Math.fround]: the nearest binary32 value (ties to even), as a double.
    This is the conversion a [Float32Array] applies on every store. *)
Definition fround (x : float) : float :=
  match Prim2SF x with
  | S754_finite s m e => SF2Prim (binary_round 24 128 s m e)
  | _ => x
  end.

(** A [Float32Array] has a fixed length; its elements read back as
    doubles. *)
Abbreviation Float32Array := (list float) (only parsing).

(** [new Float32Array(n)]: [n] elements, each +0. *)
Definition new_Float32Array (n : nat) : Float32Array := replicate n 0.

(** [a[i] = v]: the value is rounded to binary32; an index outside the
    array is ignored (typed arrays never grow). *)
Definition store (a : Float32Array) (i : nat) (v : float) : Float32Array :=
  <[i := fround v]> a.

(** [new Float32Array(array)]: every element is rounded to binary32. *)
Definition Float32Array_from (array : list float) : Float32Array :=
  fround <$> array.

End JS.

Export JS.

(** ** The layer object *)

(** [{x, y}] objects: a centroid, and the results of [project] and
    [screenToSpace]. *)
Record Point : Type := { x : float; y : float }.

(** One dataset item.  A vertex is a two-element array [[x, y]]. *)
Record Hexagon : Type := {
  centroid : Point;
  color : list float;
  vertices : list (float * float)
}.

(** [this.props]; [data] may be missing ([None]). *)
Record Props : Type := { data : option (list Hexagon) }.

(** An attribute descriptor [{value, instanced, size}]. *)
Record Attribute : Type := {
  value : option Float32Array;
  instanced : Z;
  size : Z
}.

(** [this.state].  A field that has never been assigned is [undefined],
    here [None]. *)
Record State : Type := {
  dataChanged : bool;
  viewportChanged : bool;
  positions : option Float32Array;
  colors : option Float32Array;
  pickingColors : option Float32Array;
  radius : option float;
  angle : option float;
  uniforms : gmap string (option float);
  attributes : gmap string Attribute
}.

(** The layer instance.  [this_radius] is the instance property
    [this.radius] (the user's radius scale); it is renamed because
    [this.state.radius] is [radius].  [project], [screenToSpace],
    [isPickable], [_numInstances] and [pickingColor] belong to the base
    layer and the viewport, which are outside this file. *)
Record Layer : Type := {
  props : Props;
  state : State;
  this_radius : float;
  elevation : float;
  isPickable : bool;
  _numInstances : nat;
  project : float * float -> Point;
  screenToSpace : float -> float -> Point;
  pickingColor : nat -> float * float * float
}.

Inductive Error : Type := TypeError.

(** How a method call ends: normally, or by throwing. *)
Inductive Completion : Type :=
| Normal (this : Layer)
| Throw (e : Error) (this : Layer).

Definition andThen (c : Completion) (k : Layer -> Completion) : Completion :=
  match c with
  | Normal this => k this
  | Throw e this => Throw e this
  end.

Notation "c >> k" := (andThen c k) (at level 61, left associativity).

(** *** Field assignment *)

Definition set_state (this : Layer) (s : State) : Layer :=
  {| props := props this; state := s; this_radius := this_radius this;
     elevation := elevation this; isPickable := isPickable this;
     _numInstances := _numInstances this; project := project this;
     screenToSpace := screenToSpace this; pickingColor := pickingColor this |}.

Definition set_flags (d v : bool) (s : State) : State :=
  {| dataChanged := d; viewportChanged := v; positions := positions s;
     colors := colors s; pickingColors := pickingColors s;
     radius := radius s; angle := angle s; uniforms := uniforms s;
     attributes := attributes s |}.

Definition set_positions (b : option Float32Array) (s : State) : State :=
  {| dataChanged := dataChanged s; viewportChanged := viewportChanged s;
     positions := b; colors := colors s; pickingColors := pickingColors s;
     radius := radius s; angle := angle s; uniforms := uniforms s;
     attributes := attributes s |}.

Definition set_colors (b : option Float32Array) (s : State) : State :=
  {| dataChanged := dataChanged s; viewportChanged := viewportChanged s;
     positions := positions s; colors := b; pickingColors := pickingColors s;
     radius := radius s; angle := angle s; uniforms := uniforms s;
     attributes := attributes s |}.

Definition set_pickingColors (b : option Float32Array) (s : State) : State :=
  {| dataChanged := dataChanged s; viewportChanged := viewportChanged s;
     positions := positions s; colors := colors s; pickingColors := b;
     radius := radius s; angle := angle s; uniforms := uniforms s;
     attributes := attributes s |}.

Definition set_radius (r : option float) (s : State) : State :=
  {| dataChanged := dataChanged s; viewportChanged := viewportChanged s;
     positions := positions s; colors := colors s;
     pickingColors := pickingColors s; radius := r; angle := angle s;
     uniforms := uniforms s; attributes := attributes s |}.

Definition set_angle (a : option float) (s : State) : State :=
  {| dataChanged := dataChanged s; viewportChanged := viewportChanged s;
     positions := positions s; colors := colors s;
     pickingColors := pickingColors s; radius := radius s; angle := a;
     uniforms := uniforms s; attributes := attributes s |}.

Definition set_uniforms (u : gmap string (option float)) (s : State) : State :=
  {| dataChanged := dataChanged s; viewportChanged := viewportChanged s;
     positions := positions s; colors := colors s;
     pickingColors := pickingColors s; radius := radius s; angle := angle s;
     uniforms := u; attributes := attributes s |}.

Definition set_attributes (a : gmap string Attribute) (s : State) : State :=
  {| dataChanged := dataChanged s; viewportChanged := viewportChanged s;
     positions := positions s; colors := colors s;
     pickingColors := pickingColors s; radius := radius s; angle := angle s;
     uniforms := uniforms s; attributes := a |}.

(** [array.forEach((item, i) => body)], with [i] counting from [i0]; a throw
    in the body ends the loop. *)
Fixpoint forEach {A : Type} (body : A -> nat -> Layer -> Completion)
    (i0 : nat) (array : list A) (this : Layer) : Completion :=
  match array with
  | [] => Normal this
  | item :: rest => body item i0 this >> forEach body (S i0) rest
  end.

(** [this.props.data.forEach(body)]: a missing [data] has no [forEach]. *)
Definition data_forEach (body : Hexagon -> nat -> Layer -> Completion)
    (this : Layer) : Completion :=
  match data (props this) with
  | None => Throw TypeError this
  | Some d => forEach body 0 d this
  end.

(** [this.state.positions[i] = v]; indexing [undefined] throws. *)
Definition store_position (i : nat) (v : float) (this : Layer) : Completion :=
  match positions (state this) with
  | None => Throw TypeError this
  | Some a => Normal (set_state this (set_positions (Some (store a i v)) (state this)))
  end.

(** [this.state.colors[i] = v]. *)
Definition store_color (i : nat) (v : float) (this : Layer) : Completion :=
  match colors (state this) with
  | None => Throw TypeError this
  | Some a => Normal (set_state this (set_colors (Some (store a i v)) (state this)))
  end.

(** [this.state.pickingColors[i] = v]. *)
Definition store_pickingColor (i : nat) (v : float) (this : Layer) : Completion :=
  match pickingColors (state this) with
  | None => Throw TypeError this
  | Some a => Normal (set_state this (set_pickingColors (Some (store a i v)) (state this)))
  end.

(** ** The methods of [HexagonLayer] *)

Definition _allocateGLBuffers (this : Layer) : Completion :=
  let N := _numInstances this in
  let this := set_state this (set_positions (Some (new_Float32Array (N * 3))) (state this)) in
  let this := set_state this (set_colors (Some (new_Float32Array (N * 3))) (state this)) in
  if negb (isPickable this) then Normal this
  else
    Normal (set_state this
              (set_pickingColors (Some (new_Float32Array (N * 3))) (state this))).

Definition _calculatePositions (this : Layer) : Completion :=
  data_forEach (fun hexagon i this =>
    store_position (i * 3 + 0) (x (centroid hexagon)) this >>
    store_position (i * 3 + 1) (y (centroid hexagon)) >>
    store_position (i * 3 + 2) (elevation this)) this.

Definition _calculateColors (this : Layer) : Completion :=
  data_forEach (fun hexagon i this =>
    store_color (i * 3 + 0) (ToNumber (color hexagon !! 0%nat)) this >>
    store_color (i * 3 + 1) (ToNumber (color hexagon !! 1%nat)) >>
    store_color (i * 3 + 2) (ToNumber (color hexagon !! 2%nat))) this.

(** Modelled from the spec: [_calculatePickingColors] is inherited from the
    base layer, which is not among the sources.  The spec (4.2) says: "if
    pickable: pickingColors[3i..3i+2] populated by the external
    picking-color-assignment collaborator (opaque to this core; treated as
    an injected per-instance 3-channel identifier)", for each dataset item
    in iteration order.  The injected identifier is the layer's
    [pickingColor]. *)
Definition _calculatePickingColors (this : Layer) : Completion :=
  if negb (isPickable this) then Normal this
  else
    data_forEach (fun _ i this =>
      let '(r, g, b) := pickingColor this i in
      store_pickingColor (i * 3 + 0) r this >>
      store_pickingColor (i * 3 + 1) g >>
      store_pickingColor (i * 3 + 2) b) this.

Definition updateUniforms (this : Layer) : Layer :=
  let uniforms := uniforms (state this) in
  let uniforms := <["radius" := radius (state this)]> uniforms in
  let uniforms := <["angle" := angle (state this)]> uniforms in
  set_state this (set_uniforms uniforms (state this)).

Definition updateAttributes (this : Layer) : Layer :=
  let attributes := attributes (state this) in
  let attributes :=
    <["positions" := {| value := positions (state this); instanced := 1; size := 3 |}]>
      attributes in
  let attributes :=
    <["colors" := {| value := colors (state this); instanced := 1; size := 3 |}]>
      attributes in
  if negb (isPickable this) then
    set_state this (set_attributes attributes (state this))
  else
    let attributes :=
      <["pickingColors" :=
          {| value := pickingColors (state this); instanced := 1; size := 3 |}]>
        attributes in
    set_state this (set_attributes attributes (state this)).

Section HexagonLayer.

(** The host's [Math.acos]. *)
Variable Math_acos : float -> float.

Definition _calculateRadiusAndAngle (this : Layer) : Completion :=
  match data (props this) with
  | None | Some [] => Normal this
  | Some (hexagon0 :: _) =>
    let vertices := vertices hexagon0 in
    match vertices !! 0%nat with
    | None => Throw TypeError this
    | Some vertex0 =>
      match vertices !! 3%nat with
      | None => Throw TypeError this
      | Some vertex3 =>
        (* transform to space coordinates *)
        let spaceCoord0 := project this (fst vertex0, snd vertex0) in
        let spaceCoord3 := project this (fst vertex3, snd vertex3) in
        (* map from space coordinates to screen coordinates *)
        let screenCoord0 := screenToSpace this (x spaceCoord0) (y spaceCoord0) in
        let screenCoord3 := screenToSpace this (x spaceCoord3) (y spaceCoord3) in
        (* distance between two close centroids *)
        let dx := (x screenCoord0 - x screenCoord3)%float in
        let dy := (y screenCoord0 - y screenCoord3)%float in
        let dxy := Math_sqrt (dx * dx + dy * dy)%float in
        let this :=
          set_state this
            (set_angle (Some (Math_acos (dx / dxy) * - Math_sign dy)%float)
               (state this)) in
        Normal
          (set_state this
             (set_radius (Some (dxy / 2 * Math_min [1; this_radius this])%float)
                (state this)))
      end
    end
  end.

Definition updateLayer (this : Layer) : Completion :=
  let dataChanged := dataChanged (state this) in
  let viewportChanged := viewportChanged (state this) in
  (if dataChanged then
     _allocateGLBuffers this >> _calculatePositions >> _calculateColors >>
     _calculatePickingColors
   else Normal this) >> fun this =>
  (if viewportChanged || dataChanged then _calculateRadiusAndAngle this
   else Normal this) >> fun this =>
  let this := updateUniforms this in
  let this := updateAttributes this in
  Normal (set_state this (set_flags false false (state this))).

End HexagonLayer.

(** ** The constructor and the primitive *)

(** A JS value, as far as the constructor looks at it. *)
Inductive Value : Type :=
| Undefined
| Number (v : float)
| Callback (name : string).

(** [o[k]]: a missing property reads as [undefined]. *)
Definition Get (o : gmap string Value) (k : string) : Value :=
  default Undefined (o !! k).

(** How [new HexagonLayer(opts)] ends, as far as this file decides it: the
    options object handed to the base constructor, and the two callbacks
    stored on the instance. *)
Inductive Construction : Type :=
| Constructed (super_opts : gmap string Value)
    (onObjectHovered onObjectClicked : Value)
| ConstructionThrow (e : Error) (super_opts : gmap string Value).

(** [{dotRadius: 10, elevation: 101, ...opts}]: the own properties of
    [opts] are copied over the two defaults; spreading [undefined] copies
    nothing.  Reading a property of [undefined] throws. *)
Definition constructor (opts : option (gmap string Value)) : Construction :=
  let super_opts :=
    default ∅ opts ∪
    <["dotRadius" := Number 10]> (<["elevation" := Number 101]> ∅) in
  match opts with
  | None => ConstructionThrow TypeError super_opts
  | Some opts =>
    Constructed super_opts (Get opts "onHexagonHovered")
      (Get opts "onHexagonClicked")
  end.

(** The object [getPrimitive] returns. *)
Module Primitive.

Record t : Type := {
  id : string;
  drawType : string;
  vertices : list float;
  instanced : bool
}.

End Primitive.

Section GetPrimitive.

(** The host's [Math.cos] and [Math.sin]. *)
Variables Math_cos Math_sin : float -> float.

Definition NUM_SEGMENTS : float := 6.

Definition PI2 : float := (Math_PI * 2)%float.

(** [for (let i = ...; i < NUM_SEGMENTS; i++) vertices = [...vertices, cos,
    sin, 0]], from the current [i] and [vertices]. *)
Fixpoint getPrimitive_loop (fuel : nat) (i : float) (vertices : list float)
    : option (list float) :=
  match fuel with
  | O => None
  | S fuel =>
    if (i <? NUM_SEGMENTS)%float then
      getPrimitive_loop fuel (i + 1)%float
        (vertices ++
         [Math_cos (PI2 * i / NUM_SEGMENTS)%float;
          Math_sin (PI2 * i / NUM_SEGMENTS)%float;
          0%float])
    else Some vertices
  end.

(** [this.id] belongs to the base layer and is passed in. *)
Definition getPrimitive (fuel : nat) (this_id : string) : option Primitive.t :=
  vertices ← getPrimitive_loop fuel 0%float [];
  Some {| Primitive.id := this_id;
          Primitive.drawType := "TRIANGLE_FAN";
          Primitive.vertices := Float32Array_from vertices;
          Primitive.instanced := true |}.

End GetPrimitive.

(** What ECMAScript fixes about [Math.cos] and [Math.sin] at +0. *)
Record trig_conforms (cos sin : float -> float) : Prop := {
  cos_zero : cos 0%float = 1%float;
  sin_zero : sin 0%float = 0%float
}.

(** ** A host [Math.acos]

    One admissible implementation, used to run the model on concrete
    inputs: the arguments ECMAScript singles out are answered first, the
    rest by range reduction and the arcsine series, and the result is kept
    inside the interval from +0 to [Math.PI] that ECMAScript promises. *)

Fixpoint asin_series (n : nat) (z2 term k sum : float) : float :=
  match n with
  | O => sum
  | S n =>
    let term := (term * z2 * (k * k) / ((k + 1) * (k + 2)))%float in
    asin_series n z2 term (k + 2)%float (sum + term)%float
  end.

Definition asin_small (z : float) : float :=
  asin_series 40 (z * z)%float z 1%float z.

Definition acos_reduced (v : float) : float :=
  if (0x1p-1 <? v)%float then
    (2 * asin_small (sqrt ((1 - v) / 2)))%float
  else if (v <? -0x1p-1)%float then
    (Math_PI - 2 * asin_small (sqrt ((1 + v) / 2)))%float
  else (Math_PI / 2 - asin_small v)%float.

Definition acos_host (v : float) : float :=
  if (-1 <=? v)%float && (v <=? 1)%float then
    if (v =? 1)%float then 0%float
    else
      let r := acos_reduced v in
      if (0 <=? r)%float && (r <=? Math_PI)%float then r else 0%float
  else nan.

(** What ECMAScript fixes about [Math.acos]: NaN for a NaN argument and
    for an argument above 1 or below -1; otherwise a result "in the
    inclusive interval from +0 to pi", and a double is at most pi exactly
    when it is at most [Math.PI]. *)
Record acos_conforms (acos : float -> float) : Prop := {
  acos_outside v :
    is_nan v || (1 <? v)%float || (v <? -1)%float = true -> acos v = nan;
  acos_inside v :
    (-1 <=? v)%float = true -> (v <=? 1)%float = true ->
    (0 <=? acos v)%float = true /\ (acos v <=? Math_PI)%float = true
}.

(** ** A host [Math.cos] and [Math.sin]

    One admissible pair, used to run [getPrimitive]: the Maclaurin series,
    which is exact at +0. *)
Fixpoint sin_series (n : nat) (z2 term k sum : float) : float :=
  match n with
  | O => sum
  | S n =>
    let term := (- term * z2 / ((k + 1) * (k + 2)))%float in
    sin_series n z2 term (k + 2)%float (sum + term)%float
  end.

Definition sin_host (z : float) : float :=
  sin_series 30 (z * z)%float z 1%float z.

Definition cos_host (z : float) : float :=
  sin_series 30 (z * z)%float 1%float 0%float 1%float.

(** ** Vocabulary of the specification *)

(** "Allocate and fill" (4.2): the data-changed branch of [updateLayer]. *)
Definition allocate_and_fill (this : Layer) : Completion :=
  _allocateGLBuffers this >> _calculatePositions >> _calculateColors >>
  _calculatePickingColors.

(** The terminal step of [updateLayer]: publish, then clear both flags. *)
Definition publish (this : Layer) : Layer :=
  let this := updateAttributes (updateUniforms this) in
  set_state this (set_flags false false (state this)).

(** What a three-floats-per-item loop leaves in a buffer: item [i0 + k] of
    [d] is written to the slots [3 (i0 + k)], [3 (i0 + k) + 1] and
    [3 (i0 + k) + 2]. *)
Fixpoint fill3 {A : Type} (f : nat -> A -> float * float * float)
    (i0 : nat) (d : list A) (a : Float32Array) : Float32Array :=
  match d with
  | [] => a
  | item :: rest =>
    let '(u, v, w) := f i0 item in
    fill3 f (S i0) rest
      (store (store (store a (i0 * 3 + 0) u) (i0 * 3 + 1) v) (i0 * 3 + 2) w)
  end.

Definition position_of (elev : float) (_ : nat) (h : Hexagon) : float * float * float :=
  (x (centroid h), y (centroid h), elev).

Definition color_of (_ : nat) (h : Hexagon) : float * float * float :=
  (ToNumber (color h !! 0%nat), ToNumber (color h !! 1%nat),
   ToNumber (color h !! 2%nat)).

(** The dataset is present and every item carries the four vertices the
    data model (3) requires. *)
Definition well_formed (this : Layer) : Prop :=
  exists d, data (props this) = Some d /\
            Forall (fun h => 4 <= length (vertices h)) d.

(** The two vertices the calibration reads: [data[0].vertices[0]] and
    [data[0].vertices[3]]. *)
Definition reference (this : Layer) : option ((float * float) * (float * float)) :=
  match data (props this) with
  | Some (hexagon0 :: _) =>
    match vertices hexagon0 !! 0%nat, vertices hexagon0 !! 3%nat with
    | Some vertex0, Some vertex3 => Some (vertex0, vertex3)
    | _, _ => None
    end
  | _ => None
  end.

(** A vertex taken through [project] and then [screenToSpace]. *)
Definition screenCoord (this : Layer) (vertex : float * float) : Point :=
  let spaceCoord := project this (fst vertex, snd vertex) in
  screenToSpace this (x spaceCoord) (y spaceCoord).

Definition screen_dx (this : Layer) (v0 v3 : float * float) : float :=
  (x (screenCoord this v0) - x (screenCoord this v3))%float.

Definition screen_dy (this : Layer) (v0 v3 : float * float) : float :=
  (y (screenCoord this v0) - y (screenCoord this v3))%float.

Definition screen_dxy (this : Layer) (v0 v3 : float * float) : float :=
  let dx := screen_dx this v0 v3 in
  let dy := screen_dy this v0 v3 in
  Math_sqrt (dx * dx + dy * dy)%float.

(** The terminal step has run: the uniforms and attributes hold the state's
    current values and both flags are clear. *)
Definition published (this : Layer) : Prop :=
  let s := state this in
  uniforms s !! "radius" = Some (radius s) /\
  uniforms s !! "angle" = Some (angle s) /\
  attributes s !! "positions" =
    Some {| value := positions s; instanced := 1; size := 3 |} /\
  attributes s !! "colors" =
    Some {| value := colors s; instanced := 1; size := 3 |} /\
  (isPickable this = true ->
   attributes s !! "pickingColors" =
     Some {| value := pickingColors s; instanced := 1; size := 3 |}) /\
  dataChanged s = false /\ viewportChanged s = false.

(** What "allocate and fill" leaves behind on the dataset [d]: fresh
    buffers of [_numInstances * 3] zeros written item by item; the picking
    buffer is touched only on a pickable layer. *)
Definition rebuilt (this : Layer) (d : list Hexagon) : Layer :=
  let zeros := new_Float32Array (_numInstances this * 3) in
  set_state this
    (set_pickingColors
       (if isPickable this
        then Some (fill3 (fun i _ => pickingColor this i) 0 d zeros)
        else pickingColors (state this))
       (set_colors (Some (fill3 color_of 0 d zeros))
          (set_positions
             (Some (fill3 (position_of (elevation this)) 0 d zeros))
             (state this)))).

(** A layer that is not pickable holds no picking buffer and publishes no
    picking attribute. *)
Definition unpickable_clean (this : Layer) : Prop :=
  isPickable this = false ->
  pickingColors (state this) = None /\
  attributes (state this) !! "pickingColors" = None.

(** Two layers with the same configuration (everything but [state]). *)
Definition same_config (a b : Layer) : Prop :=
  props a = props b /\ this_radius a = this_radius b /\
  elevation a = elevation b /\ isPickable a = isPickable b /\
  _numInstances a = _numInstances b /\ pickingColor a = pickingColor b.

(** The radius the calibration computes from the screen distance [dxy]
    and the user's scale. *)
Definition radius_for (dxy scale : float) : float :=
  (dxy / 2 * Math_min [1; scale])%float.

(** The angle the calibration computes. *)
Definition angle_for (acos : float -> float) (dx dy dxy : float) : float :=
  (acos (dx / dxy) * - Math_sign dy)%float.

(** A float that is NaN, a zero, or positive. *)
Definition nonneg_or_nan (f : spec_float) : bool :=
  match f with
  | S754_zero _ | S754_nan => true
  | S754_infinity s | S754_finite s _ _ => negb s
  end.

(** The calibration result is within the bounds: the radius is never
    negative, so it is at least zero whenever it is a number; the angle lies
    between [-Math.PI] and [Math.PI]. *)
Definition in_bounds (this : Layer) : Prop :=
  (forall r, radius (state this) = Some r ->
     (r <? 0)%float = false /\ (is_nan r = false -> (0 <=? r)%float = true)) /\
  (forall a, angle (state this) = Some a ->
     (- Math_PI <=? a)%float = true /\ (a <=? Math_PI)%float = true).

(** ** Rounding, in integers

    The vocabulary in which the rounding of [SpecFloat] is analysed: a
    float's value scaled by [2^2200] to an integer, and what it means for a
    mantissa to be the nearest, ties to even. *)

Section RoundingVocabulary.

Local Open Scope Z_scope.

Definition nearest_even (M m T : Z) : Prop :=
  (2 * M - 1) * T <= m <= (2 * M + 1) * T /\
  (m = (2 * M - 1) * T -> Z.even M = true) /\
  (m = (2 * M + 1) * T -> Z.even M = true).

(** The last step of [binary_round_aux] on a rounded mantissa [M] at the
    exponent [E]: a mantissa that reached [2^53] is renormalised. *)
Definition finish (s : bool) (M E : Z) : spec_float :=
  match M with
  | Z0 => S754_zero s
  | Zpos q =>
    if M =? 2 ^ 53 then
      if E + 1 <=? emax - prec then S754_finite s (2 ^ 52)%positive (E + 1)
      else S754_infinity s
    else if E <=? emax - prec then S754_finite s q E else S754_infinity s
  | Zneg _ => S754_nan
  end.

Definition scaled (m e : Z) : Z := m * 2 ^ (e + 2200).

Definition near (M E m e : Z) : Prop :=
  2 * scaled M E - 2 ^ (E + 2200) <= 2 * scaled m e <= 2 * scaled M E + 2 ^ (E + 2200) /\
  (2 * scaled m e = 2 * scaled M E - 2 ^ (E + 2200) -> Z.even M = true) /\
  (2 * scaled m e = 2 * scaled M E + 2 ^ (E + 2200) -> Z.even M = true).

(** A mantissa and exponent in binary64's normal form, by bounds. *)
Definition canonical_pair (M E : Z) : Prop :=
  0 <= M < 2 ^ 53 /\ -1074 <= E /\ (-1074 < E -> 2 ^ 52 <= M).

Definition build (s : bool) (M E : Z) : spec_float :=
  match M with
  | Z0 => S754_zero s
  | Zpos q => if E <=? emax - prec then S754_finite s q E else S754_infinity s
  | Zneg _ => S754_nan
  end.

Definition norm (M E : Z) : Z * Z :=
  if M =? 2 ^ 53 then (2 ^ 52, E + 1) else (M, E).

(** The place of a float in the order of the values: its scaled value,
    with the infinities beyond every finite one. *)
Definition beyond : Z := 2 ^ 4000.

Definition SFord (f : spec_float) : Z :=
  match f with
  | S754_zero _ | S754_nan => 0
  | S754_infinity s => if s then - beyond else beyond
  | S754_finite s m e =>
    if s then - scaled (Zpos m) e else scaled (Zpos m) e
  end.

End RoundingVocabulary.

(** The place of a double in the order of the values. *)
Definition ord (v : float) : Z := SFord (Prim2SF v).


(** ** Concrete inputs *)

Definition identity_project (v : float * float) : Point :=
  {| x := fst v; y := snd v |}.

Definition identity_screen (a b : float) : Point := {| x := a; y := b |}.

Definition no_pickingColor (_ : nat) : float * float * float :=
  (0%float, 0%float, 0%float).

(** A state in which nothing has been computed or published yet. *)
Definition blank_state (d v : bool) : State :=
  {| dataChanged := d; viewportChanged := v; positions := None;
     colors := None; pickingColors := None; radius := None; angle := None;
     uniforms := ∅; attributes := ∅ |}.

(** A layer over [d] with identity projections, [this.radius = scale] and
    the default elevation 101. *)
Definition layer_of (d : list Hexagon) (scale : float) (pickable : bool)
    (dataChanged viewportChanged : bool) : Layer :=
  {| props := {| data := Some d |};
     state := blank_state dataChanged viewportChanged;
     this_radius := scale; elevation := 101%float; isPickable := pickable;
     _numInstances := length d; project := identity_project;
     screenToSpace := identity_screen; pickingColor := no_pickingColor |}.

(** The example of the specification (8): centroid (1, 2), colour
    (10, 20, 30), reference vertices (0, 0) and (1, 0). *)
Definition hexagon_8 : Hexagon :=
  {| centroid := {| x := 1%float; y := 2%float |};
     color := [10%float; 20%float; 30%float];
     vertices := [(0%float, 0%float); (0%float, 0%float); (0%float, 0%float);
                  (1%float, 0%float)] |}.

(** A hexagon whose reference vertices 0 and 3 coincide. *)
Definition hexagon_degenerate : Hexagon :=
  {| centroid := {| x := 1%float; y := 2%float |};
     color := [10%float; 20%float; 30%float];
     vertices := [(5%float, 7%float); (0%float, 0%float); (0%float, 0%float);
                  (5%float, 7%float)] |}.

(** The layer a completion carries. *)
Definition completed (c : Completion) : Layer :=
  match c with Normal this | Throw _ this => this end.

Definition layer_8 : Layer := layer_of [hexagon_8] 10%float false true false.

Definition layer_degenerate : Layer :=
  layer_of [hexagon_degenerate] 10%float false true false.

(** A hexagon with three vertices only. *)
Definition hexagon_short : Hexagon :=
  {| centroid := {| x := 1%float; y := 2%float |};
     color := [10%float; 20%float; 30%float];
     vertices := [(0%float, 0%float); (1%float, 0%float); (1%float, 1%float)] |}.

Definition layer_short : Layer :=
  layer_of [hexagon_short] 10%float false true false.

(** The short item comes second: the calibration never looks at it. *)
Definition layer_short_second : Layer :=
  layer_of [hexagon_8; hexagon_short] 10%float false true false.

(** The double nearest to one tenth is not a single-precision number. *)
Definition hexagon_tenth : Hexagon :=
  {| centroid := {| x := 0x1.999999999999ap-4%float; y := 2%float |};
     color := [0x1.999999999999ap-4%float; 20%float; 30%float];
     vertices := vertices hexagon_8 |}.

Definition layer_tenth : Layer :=
  layer_of [hexagon_tenth] 10%float false true false.

(** An empty dataset under a layer that was calibrated before. *)
Definition layer_emptied : Layer :=
  let this := layer_of [] 10%float false true false in
  set_state this
    (set_radius (Some 0x1p-1%float) (set_angle (Some (-0)%float) (state this))).

(** A negative radius scale. *)
Definition layer_negative : Layer :=
  layer_of [hexagon_8] (-1)%float false true false.

(** Reference vertices so close that [dx * dx] underflows to the least
    subnormal. *)
Definition hexagon_underflow : Hexagon :=
  {| centroid := {| x := 1%float; y := 2%float |};
     color := [10%float; 20%float; 30%float];
     vertices := [(0x1.0cccccccccccdp-537%float, 0%float); (0%float, 0%float);
                  (0%float, 0%float); (0%float, 0%float)] |}.

Definition layer_underflow : Layer :=
  layer_of [hexagon_underflow] 10%float false true false.

(** The buffers [_allocateGLBuffers] leaves behind: nothing filled yet. *)
Definition allocated (this : Layer) : Layer := rebuilt this [].

(** A layer whose [props.data] is missing. *)
Definition layer_missing : Layer :=
  {| props := {| data := None |};
     state := blank_state true false;
     this_radius := 10%float; elevation := 101%float; isPickable := false;
     _numInstances := 2; project := identity_project;
     screenToSpace := identity_screen; pickingColor := no_pickingColor |}.

(** [_numInstances] disagrees with the dataset: two items, one instance. *)
Definition layer_one_of_two : Layer :=
  {| props := {| data := Some [hexagon_8; hexagon_degenerate] |};
     state := blank_state true false;
     this_radius := 10%float; elevation := 101%float; isPickable := false;
     _numInstances := 1; project := identity_project;
     screenToSpace := identity_screen; pickingColor := no_pickingColor |}.

(** A colour with two channels only. *)
Definition hexagon_two_channels : Hexagon :=
  {| centroid := {| x := 1%float; y := 2%float |};
     color := [10%float; 20%float];
     vertices := vertices hexagon_8 |}.

Definition layer_two_channels : Layer :=
  layer_of [hexagon_two_channels] 10%float false true false.

(** A layer that is not pickable but still holds a picking buffer and a
    picking attribute, and a uniform of another owner. *)
Definition layer_stale_picking : Layer :=
  let this := layer_of [hexagon_8] 10%float false true false in
  set_state this
    (set_uniforms (<["opacity" := Some 1%float]> ∅)
       (set_attributes
          (<["pickingColors" :=
               {| value := Some [7%float; 8%float; 9%float]; instanced := 1;
                  size := 3 |}]> ∅)
          (set_pickingColors (Some [7%float; 8%float; 9%float]) (state this)))).

(** The reference pair points up the screen, and down. *)
Definition hexagon_rising : Hexagon :=
  {| centroid := {| x := 1%float; y := 2%float |};
     color := [10%float; 20%float; 30%float];
     vertices := [(0%float, 4%float); (0%float, 0%float); (0%float, 0%float);
                  (3%float, 0%float)] |}.

Definition layer_rising : Layer :=
  layer_of [hexagon_rising] 10%float false true false.

(** A layer whose radius scale is NaN. *)
Definition layer_NaN_scale : Layer :=
  layer_of [hexagon_8] nan false true false.

(** Two floats that are each other's negation, or both zeros. *)
Definition mirrored (a b : spec_float) : Prop :=
  b = SFopp a \/ exists s s', a = S754_zero s /\ b = S754_zero s'.

(** A copy of [hexagon_rising] with the reference vertices swapped. *)
Definition hexagon_falling : Hexagon :=
  {| centroid := {| x := 1%float; y := 2%float |};
     color := [10%float; 20%float; 30%float];
     vertices := [(3%float, 0%float); (0%float, 0%float); (0%float, 0%float);
                  (0%float, 4%float)] |}.

Definition layer_falling : Layer :=
  layer_of [hexagon_falling] 10%float false true false.

(** ** Properties *)

(** *** The completion monad and field assignment *)

Lemma set_state_set_state this s1 s2 :
  set_state (set_state this s1) s2 = set_state this s2.
Proof. reflexivity. Qed.

Lemma set_state_state this : set_state this (state this) = this.
Proof. by destruct this. Qed.

Lemma andThen_Normal_inv c k t :
  c >> k = Normal t -> exists u, c = Normal u /\ k u = Normal t.
Proof. destruct c as [u|e u]; simpl; [eauto | discriminate]. Qed.

(** *** Three floats per item *)

Section Fill3.

Context {A : Type} (f : nat -> A -> float * float * float).

Lemma fill3_length i0 d a : length (fill3 f i0 d a) = length a.
Proof.
  revert i0 a. induction d as [|item rest IH]; intros i0 a; simpl; [done|].
  destruct (f i0 item) as [[u v] w]. rewrite IH. unfold store.
  by rewrite !length_insert.
Qed.

Lemma fill3_lookup_below i0 d a j :
  j < i0 * 3 -> fill3 f i0 d a !! j = a !! j.
Proof.
  revert i0 a. induction d as [|item rest IH]; intros i0 a Hj; simpl; [done|].
  destruct (f i0 item) as [[u v] w]. rewrite IH by lia. unfold store.
  rewrite !list_lookup_insert_ne by lia. done.
Qed.

Lemma fill3_lookup i0 d a k item :
  d !! k = Some item -> (i0 + k) * 3 + 2 < length a ->
  fill3 f i0 d a !! ((i0 + k) * 3 + 0) = Some (fround (f (i0 + k) item).1.1) /\
  fill3 f i0 d a !! ((i0 + k) * 3 + 1) = Some (fround (f (i0 + k) item).1.2) /\
  fill3 f i0 d a !! ((i0 + k) * 3 + 2) = Some (fround (f (i0 + k) item).2).
Proof.
  revert i0 a k. induction d as [|h rest IH]; intros i0 a k Hk Hlen; [done|].
  destruct k as [|k]; simpl in Hk.
  - injection Hk as ->. replace (i0 + 0) with i0 in * by lia. simpl.
    destruct (f i0 item) as [[u v] w]; simpl.
    rewrite !fill3_lookup_below by lia. unfold store.
    repeat split.
    + rewrite !list_lookup_insert_ne by lia.
      apply list_lookup_insert_eq. lia.
    + rewrite list_lookup_insert_ne by lia.
      apply list_lookup_insert_eq. rewrite length_insert. lia.
    + apply list_lookup_insert_eq. rewrite !length_insert. lia.
  - simpl. destruct (f i0 h) as [[u v] w].
    replace (i0 + S k) with (S i0 + k) in * by lia.
    apply IH; [done|]. unfold store. rewrite !length_insert. lia.
Qed.

End Fill3.

(** *** The three fill loops *)

Lemma store_position_Some i v this a :
  positions (state this) = Some a ->
  store_position i v this =
  Normal (set_state this (set_positions (Some (store a i v)) (state this))).
Proof. intros Ha. unfold store_position. by rewrite Ha. Qed.

Lemma store_color_Some i v this a :
  colors (state this) = Some a ->
  store_color i v this =
  Normal (set_state this (set_colors (Some (store a i v)) (state this))).
Proof. intros Ha. unfold store_color. by rewrite Ha. Qed.

Lemma store_pickingColor_Some i v this a :
  pickingColors (state this) = Some a ->
  store_pickingColor i v this =
  Normal (set_state this (set_pickingColors (Some (store a i v)) (state this))).
Proof. intros Ha. unfold store_pickingColor. by rewrite Ha. Qed.

Lemma _calculatePositions_fill3 this d a :
  data (props this) = Some d -> positions (state this) = Some a ->
  _calculatePositions this =
  Normal (set_state this
            (set_positions (Some (fill3 (position_of (elevation this)) 0 d a))
               (state this))).
Proof.
  intros Hd. unfold _calculatePositions, data_forEach. rewrite Hd. clear Hd.
  cbv beta iota.
  match goal with |- context [forEach ?f _ _ _] => set (body := f) end.
  generalize 0. revert this a.
  induction d as [|h rest IH]; intros this a i0 Ha; simpl.
  - rewrite <- Ha. destruct this as [? []]; reflexivity.
  - unfold body at 1. cbv beta.
    erewrite (store_position_Some _ _ this) by exact Ha. simpl.
    erewrite IH by reflexivity. reflexivity.
Qed.

Lemma _calculateColors_fill3 this d a :
  data (props this) = Some d -> colors (state this) = Some a ->
  _calculateColors this =
  Normal (set_state this (set_colors (Some (fill3 color_of 0 d a)) (state this))).
Proof.
  intros Hd. unfold _calculateColors, data_forEach. rewrite Hd. clear Hd.
  cbv beta iota.
  match goal with |- context [forEach ?f _ _ _] => set (body := f) end.
  generalize 0. revert this a.
  induction d as [|h rest IH]; intros this a i0 Ha; simpl.
  - rewrite <- Ha. destruct this as [? []]; reflexivity.
  - unfold body at 1. cbv beta.
    erewrite (store_color_Some _ _ this) by exact Ha. simpl.
    erewrite IH by reflexivity. reflexivity.
Qed.

Lemma _calculatePickingColors_fill3 this d a :
  isPickable this = true ->
  data (props this) = Some d -> pickingColors (state this) = Some a ->
  _calculatePickingColors this =
  Normal (set_state this
            (set_pickingColors
               (Some (fill3 (fun i _ => pickingColor this i) 0 d a))
               (state this))).
Proof.
  intros Hp Hd. unfold _calculatePickingColors, data_forEach.
  rewrite Hp, Hd. simpl. clear Hp Hd.
  match goal with |- context [forEach ?f _ _ _] => set (body := f) end.
  generalize 0. revert this a.
  induction d as [|h rest IH]; intros this a i0 Ha; simpl.
  - rewrite <- Ha. destruct this as [? []]; reflexivity.
  - unfold body at 1. cbv beta.
    destruct (pickingColor this i0) as [[r g] b] eqn:Hc.
    erewrite (store_pickingColor_Some _ _ this) by exact Ha. simpl.
    erewrite IH by reflexivity. reflexivity.
Qed.

(** *** Allocate and fill *)

Lemma _allocateGLBuffers_Normal this :
  _allocateGLBuffers this =
  let zeros := new_Float32Array (_numInstances this * 3) in
  Normal (set_state this
            (set_pickingColors
               (if isPickable this then Some zeros
                else pickingColors (state this))
               (set_colors (Some zeros)
                  (set_positions (Some zeros) (state this))))).
Proof.
  unfold _allocateGLBuffers. simpl.
  destruct (isPickable this); destruct this as [? []]; reflexivity.
Qed.

Lemma allocate_and_fill_rebuilt this d :
  data (props this) = Some d -> allocate_and_fill this = Normal (rebuilt this d).
Proof.
  intros Hd. unfold allocate_and_fill.
  rewrite _allocateGLBuffers_Normal. cbv zeta. cbn [andThen].
  erewrite _calculatePositions_fill3; [|exact Hd|reflexivity]. cbn [andThen].
  erewrite _calculateColors_fill3; [|exact Hd|reflexivity]. cbn [andThen].
  unfold rebuilt. destruct (isPickable this) eqn:Hp.
  - erewrite _calculatePickingColors_fill3; [|exact Hp|exact Hd|reflexivity].
    reflexivity.
  - unfold _calculatePickingColors. cbn [isPickable set_state]. rewrite Hp.
    reflexivity.
Qed.

(** *** Publishing *)

Lemma insert2_idem {V : Type} (m : gmap string V) (i j : string) (a b : V) :
  i <> j ->
  <[j := b]> (<[i := a]> (<[j := b]> (<[i := a]> m))) = <[j := b]> (<[i := a]> m).
Proof.
  intros Hij. apply map_eq. intros k.
  destruct (decide (k = j)) as [->|Hj].
  - by rewrite !lookup_insert_eq.
  - rewrite !(lookup_insert_ne _ j k) by done.
    destruct (decide (k = i)) as [->|Hi].
    + by rewrite !lookup_insert_eq.
    + by rewrite !lookup_insert_ne by done.
Qed.

Lemma updateUniforms_idem this :
  updateUniforms (updateUniforms this) = updateUniforms this.
Proof.
  unfold updateUniforms. simpl. rewrite insert2_idem by done. reflexivity.
Qed.

Lemma publish_published this : published (publish this).
Proof.
  unfold published, publish, updateAttributes, updateUniforms.
  destruct this as [? ? ? ? [] ? ? ? ?]; simpl;
    repeat split; try done; by simplify_map_eq.
Qed.

Lemma publish_idem this : publish (publish this) = publish this.
Proof.
  destruct this as [? [] ? ? [] ? ? ? ?];
    unfold publish, updateAttributes, updateUniforms; simpl;
    unfold set_state, set_flags; simpl; do 2 f_equal;
    rewrite !insert_id by (by simplify_map_eq); reflexivity.
Qed.

(** *** The update pass *)

Section UpdatePass.

Variable Math_acos : float -> float.

Lemma updateLayer_unfold this :
  updateLayer Math_acos this =
  (if dataChanged (state this) then allocate_and_fill this else Normal this)
  >> fun built =>
  (if viewportChanged (state this) || dataChanged (state this)
   then _calculateRadiusAndAngle Math_acos built else Normal built)
  >> fun calibrated => Normal (publish calibrated).
Proof. reflexivity. Qed.

Lemma _calculateRadiusAndAngle_reference this v0 v3 :
  reference this = Some (v0, v3) ->
  _calculateRadiusAndAngle Math_acos this =
  Normal
    (set_state this
       (set_radius
          (Some (screen_dxy this v0 v3 / 2 * Math_min [1%float; this_radius this])%float)
          (set_angle
             (Some (Math_acos (screen_dx this v0 v3 / screen_dxy this v0 v3)
                    * - Math_sign (screen_dy this v0 v3))%float)
             (state this)))).
Proof.
  unfold reference, _calculateRadiusAndAngle.
  destruct (data (props this)) as [[|h rest]|]; try discriminate.
  destruct (vertices h !! 0%nat) as [a|]; try discriminate.
  destruct (vertices h !! 3%nat) as [b|]; try discriminate.
  intros [= -> ->]. reflexivity.
Qed.

Lemma _calculateRadiusAndAngle_empty this :
  data (props this) = Some [] ->
  _calculateRadiusAndAngle Math_acos this = Normal this.
Proof. intros Hd. unfold _calculateRadiusAndAngle. by rewrite Hd. Qed.

Lemma _calculateRadiusAndAngle_short this h rest :
  data (props this) = Some (h :: rest) -> length (vertices h) < 4 ->
  _calculateRadiusAndAngle Math_acos this = Throw TypeError this.
Proof.
  intros Hd Hlen. unfold _calculateRadiusAndAngle. rewrite Hd.
  destruct (vertices h !! 0%nat); [|done].
  rewrite (lookup_ge_None_2 (vertices h) 3) by lia. done.
Qed.

Lemma reference_Some this h rest :
  data (props this) = Some (h :: rest) -> 4 <= length (vertices h) ->
  exists v0 v3, reference this = Some (v0, v3).
Proof.
  intros Hd Hlen. unfold reference. rewrite Hd.
  destruct (lookup_lt_is_Some_2 (vertices h) 0) as [v0 ->]; [lia|].
  destruct (lookup_lt_is_Some_2 (vertices h) 3) as [v3 ->]; [lia|].
  eauto.
Qed.

Lemma _calculateRadiusAndAngle_well_formed this :
  well_formed this ->
  exists t, _calculateRadiusAndAngle Math_acos this = Normal t /\
            same_config this t /\
            positions (state t) = positions (state this) /\
            colors (state t) = colors (state this) /\
            pickingColors (state t) = pickingColors (state this).
Proof.
  intros (d & Hd & Hall). destruct d as [|h rest].
  - exists this. rewrite _calculateRadiusAndAngle_empty by done.
    by repeat split.
  - apply Forall_cons in Hall as [Hh _].
    destruct (reference_Some this h rest Hd Hh) as (v0 & v3 & Href).
    eexists. split; [by apply _calculateRadiusAndAngle_reference|].
    by repeat split.
Qed.



(** C7. A second update, with no flag set in between, recomputes nothing
    and leaves the layer exactly as the first update left it: the same
    published uniforms and attributes, bit for bit, and both flags clear. *)
Theorem updateLayer_idempotent this this1 :
  updateLayer Math_acos this = Normal this1 ->
  updateLayer Math_acos this1 = Normal (publish this1) /\
  publish this1 = this1 /\
  published this1 /\
  dataChanged (state this1) = false /\ viewportChanged (state this1) = false.
Proof.
  rewrite updateLayer_unfold. intros H.
  apply andThen_Normal_inv in H as (built & _ & H).
  apply andThen_Normal_inv in H as (calibrated & _ & [= <-]).
  rewrite updateLayer_unfold.
  replace (dataChanged (state (publish calibrated))) with false
    by (unfold publish, updateAttributes; by destruct (negb _)).
  replace (viewportChanged (state (publish calibrated))) with false
    by (unfold publish, updateAttributes; by destruct (negb _)).
  cbn [andThen orb]. rewrite publish_idem.
  repeat split; try apply publish_published.
Qed.


Lemma updateLayer_total this h rest :
  data (props this) = Some (h :: rest) -> 4 <= length (vertices h) ->
  exists t, updateLayer Math_acos this = Normal t.
Proof.
  intros Hd Hlen. rewrite updateLayer_unfold.
  destruct (dataChanged (state this)).
  - rewrite (allocate_and_fill_rebuilt this _ Hd). cbn [andThen].
    rewrite orb_true_r.
    destruct (reference_Some (rebuilt this (h :: rest)) h rest Hd Hlen)
      as (v0 & v3 & Href).
    rewrite (_calculateRadiusAndAngle_reference _ _ _ Href). cbn [andThen].
    eauto.
  - cbn [andThen]. rewrite orb_false_r.
    destruct (viewportChanged (state this)); [|cbn [andThen]; eauto].
    destruct (reference_Some this h rest Hd Hlen) as (v0 & v3 & Href).
    rewrite (_calculateRadiusAndAngle_reference _ _ _ Href). cbn [andThen].
    eauto.
Qed.

(** C5, as the code has it.  Nothing is validated at the boundary.  The
    calibration reads the vertices of the first item only: when that item
    has fewer than four, [_calculateRadiusAndAngle] throws a [TypeError],
    which ends the update pass in the middle (after the buffers were
    rebuilt on a data change, with nothing published and the flags still
    set); a pass with neither flag set does not look at the vertices at
    all.  When the first item has its four vertices the pass completes,
    whatever the vertices of the other items. *)
Theorem short_vertices_throw_in_calibration this h rest :
  data (props this) = Some (h :: rest) ->
  (length (vertices h) < 4 ->
   _calculateRadiusAndAngle Math_acos this = Throw TypeError this /\
   (dataChanged (state this) = true ->
    updateLayer Math_acos this = Throw TypeError (rebuilt this (h :: rest)) /\
    dataChanged (state (rebuilt this (h :: rest))) = true /\
    uniforms (state (rebuilt this (h :: rest))) = uniforms (state this) /\
    attributes (state (rebuilt this (h :: rest))) = attributes (state this)) /\
   (dataChanged (state this) = false -> viewportChanged (state this) = true ->
    updateLayer Math_acos this = Throw TypeError this) /\
   (dataChanged (state this) = false -> viewportChanged (state this) = false ->
    updateLayer Math_acos this = Normal (publish this))) /\
  (4 <= length (vertices h) ->
   exists t, updateLayer Math_acos this = Normal t).
Proof.
  intros Hd. split; [|by apply updateLayer_total with rest].
  intros Hlen. split; [by apply _calculateRadiusAndAngle_short with h rest|].
  rewrite updateLayer_unfold. split; [|split].
  - intros Hdc. rewrite Hdc, (allocate_and_fill_rebuilt this _ Hd).
    cbn [andThen]. rewrite orb_true_r.
    by rewrite (_calculateRadiusAndAngle_short (rebuilt this (h :: rest)) h rest).
  - intros -> ->. cbn [andThen orb].
    by rewrite (_calculateRadiusAndAngle_short this h rest).
  - by intros -> ->.
Qed.

(** C6. On an empty dataset the buffers are allocated with length zero,
    the fill loops change nothing, the calibration returns at once, and
    the update pass completes with the radius and angle it started with. *)
Theorem empty_dataset this :
  data (props this) = Some [] -> _numInstances this = 0 ->
  (exists buffers,
     _allocateGLBuffers this = Normal buffers /\
     positions (state buffers) = Some [] /\
     colors (state buffers) = Some [] /\
     (isPickable this = true -> pickingColors (state buffers) = Some []) /\
     _calculatePositions buffers = Normal buffers /\
     _calculateColors buffers = Normal buffers /\
     _calculatePickingColors buffers = Normal buffers /\
     _calculateRadiusAndAngle Math_acos buffers = Normal buffers) /\
  _calculateRadiusAndAngle Math_acos this = Normal this /\
  exists this',
    updateLayer Math_acos this = Normal this' /\
    radius (state this') = radius (state this) /\
    angle (state this') = angle (state this).
Proof.
  intros Hd HN. split; [|split].
  - eexists. rewrite _allocateGLBuffers_Normal, HN. cbv zeta.
    split; [reflexivity|]. cbn [state set_state positions colors set_colors
      set_positions set_pickingColors pickingColors new_Float32Array
      replicate Nat.mul].
    repeat split.
    + by intros ->.
    + unfold _calculatePositions, data_forEach. simpl. by rewrite Hd.
    + unfold _calculateColors, data_forEach. simpl. by rewrite Hd.
    + unfold _calculatePickingColors, data_forEach. simpl. rewrite Hd.
      by destruct (negb _).
    + by apply _calculateRadiusAndAngle_empty.
  - by apply _calculateRadiusAndAngle_empty.
  - rewrite updateLayer_unfold.
    assert (Hpub : forall t, radius (state (publish t)) = radius (state t) /\
                             angle (state (publish t)) = angle (state t)).
    { intros t. unfold publish, updateAttributes. by destruct (negb _). }
    destruct (dataChanged (state this)).
    + rewrite (allocate_and_fill_rebuilt this _ Hd). cbn [andThen].
      rewrite orb_true_r, (_calculateRadiusAndAngle_empty (rebuilt this []) Hd).
      cbn [andThen]. eexists. split; [reflexivity|].
      by destruct (Hpub (rebuilt this [])) as [-> ->].
    + cbn [andThen]. rewrite orb_false_r.
      destruct (viewportChanged (state this)).
      * rewrite _calculateRadiusAndAngle_empty by done. cbn [andThen].
        eexists. split; [reflexivity|]. apply Hpub.
      * cbn [andThen]. eexists. split; [reflexivity|]. apply Hpub.
Qed.

End UpdatePass.

(** *** The instance buffers *)

Lemma length_new_Float32Array n : length (new_Float32Array n) = n.
Proof. apply length_replicate. Qed.

(** C8. After allocate and fill on a dataset of [N] items, the position
    and colour buffers are fresh arrays of exactly [3 N] elements whose
    contents do not depend on the layer's previous state; the picking
    buffer, and the published picking attribute, exist exactly on a
    pickable layer, where the buffer too has [3 N] elements. *)
Theorem allocate_and_fill_buffers this d :
  data (props this) = Some d -> _numInstances this = length d ->
  unpickable_clean this ->
  exists built p c,
    allocate_and_fill this = Normal built /\
    positions (state built) = Some p /\ length p = 3 * length d /\
    colors (state built) = Some c /\ length c = 3 * length d /\
    (is_Some (pickingColors (state built)) <-> isPickable this = true) /\
    (forall k, pickingColors (state built) = Some k -> length k = 3 * length d) /\
    (is_Some (attributes (state (updateAttributes built)) !! "pickingColors")
     <-> isPickable this = true) /\
    (forall other, same_config this other ->
       exists built',
         allocate_and_fill other = Normal built' /\
         positions (state built') = Some p /\
         colors (state built') = Some c /\
         (isPickable this = true ->
          pickingColors (state built') = pickingColors (state built))).
Proof.
  intros Hd HN Hclean.
  exists (rebuilt this d). do 2 eexists.
  split; [by apply allocate_and_fill_rebuilt|].
  split; [reflexivity|]. split.
  { rewrite fill3_length, length_new_Float32Array. lia. }
  split; [reflexivity|]. split.
  { rewrite fill3_length, length_new_Float32Array. lia. }
  split; [|split; [|split]].
  - unfold rebuilt. simpl. destruct (isPickable this) eqn:Hp.
    + split; [done|]. by eexists.
    + destruct (Hclean Hp) as [-> _]. split; [by intros [? ?]|done].
  - unfold rebuilt. simpl. destruct (isPickable this) eqn:Hp.
    + intros k [= <-]. rewrite fill3_length, length_new_Float32Array. lia.
    + destruct (Hclean Hp) as [-> _]. done.
  - unfold updateAttributes, rebuilt. simpl.
    destruct (isPickable this) eqn:Hp; simpl.
    + rewrite lookup_insert_eq. split; [done|]. by eexists.
    + rewrite !lookup_insert_ne by done.
      destruct (Hclean Hp) as [_ ->]. split; [by intros [? ?]|done].
  - intros other (Hprops & _ & Hel & Hpk & Hnum & Hpc).
    exists (rebuilt other d).
    split; [apply allocate_and_fill_rebuilt; by rewrite <- Hprops|].
    unfold rebuilt. simpl. rewrite <- Hel, <- Hnum, <- Hpk, <- Hpc.
    repeat split. by intros ->.
Qed.

(** C3, as the code has it.  After allocate and fill, the slots of item
    [i] hold the item's centroid, the layer's elevation and the item's
    three colour channels, each rounded to single precision by the
    [Float32Array] store (a missing channel is stored as NaN).  A value
    that is a single-precision number, such as the default elevation 101,
    is therefore stored exactly. *)
Theorem fill_values this d :
  data (props this) = Some d -> _numInstances this = length d ->
  exists built p c,
    allocate_and_fill this = Normal built /\
    positions (state built) = Some p /\
    colors (state built) = Some c /\
    forall i h, d !! i = Some h ->
      p !! (3 * i + 0) = Some (fround (x (centroid h))) /\
      p !! (3 * i + 1) = Some (fround (y (centroid h))) /\
      p !! (3 * i + 2) = Some (fround (elevation this)) /\
      c !! (3 * i + 0) = Some (fround (ToNumber (color h !! 0%nat))) /\
      c !! (3 * i + 1) = Some (fround (ToNumber (color h !! 1%nat))) /\
      c !! (3 * i + 2) = Some (fround (ToNumber (color h !! 2%nat))) /\
      (elevation this = 101%float -> p !! (3 * i + 2) = Some 101%float).
Proof.
  intros Hd HN.
  exists (rebuilt this d). do 2 eexists.
  split; [by apply allocate_and_fill_rebuilt|].
  split; [reflexivity|]. split; [reflexivity|].
  intros i h Hi.
  assert (Hlt : i < length d) by (by eapply lookup_lt_Some).
  assert (Hlen : (0 + i) * 3 + 2 < length (new_Float32Array (_numInstances this * 3))).
  { rewrite length_new_Float32Array. lia. }
  destruct (fill3_lookup (position_of (elevation this)) 0 d _ i h Hi Hlen)
    as (Hp0 & Hp1 & Hp2).
  destruct (fill3_lookup color_of 0 d _ i h Hi Hlen) as (Hc0 & Hc1 & Hc2).
  replace ((0 + i) * 3) with (3 * i) in * by lia.
  repeat split; try assumption.
  intros Hel. rewrite Hp2. simpl. rewrite Hel. reflexivity.
Qed.

(** *** Rounding to nearest, ties to even *)

Section Rounding.

Local Open Scope Z_scope.

Lemma SFcompare_antisym a b :
  SFcompare b a = CompOpp <$> SFcompare a b.
Proof.
  destruct a as [sa|sa| |sa ma ea], b as [sb|sb| |sb mb eb]; simpl;
    try done; try (by destruct sa); try (by destruct sb);
    try (by destruct sa, sb).
  destruct sa, sb; simpl; try done;
    rewrite (Z.compare_antisym ea eb); destruct (ea ?= eb)%Z; simpl; try done;
    rewrite (Pos.compare_cont_antisym ma mb Eq); simpl;
    by rewrite ?CompOpp_involutive.
Qed.


Lemma iter_pos_invariant {A} (P : A -> Prop) (f : A -> A) :
  (forall a, P a -> P (f a)) -> forall p a, P a -> P (SpecFloat.iter_pos f p a).
Proof.
  intros Hf. induction p as [p IH|p IH|]; intros a Ha; simpl; auto.
Qed.

Lemma shr_1_nonneg mrs : 0 <= shr_m mrs -> 0 <= shr_m (shr_1 mrs).
Proof. destruct mrs as [[|[p|p|]|p] r s]; simpl; lia. Qed.

Lemma shr_nonneg mrs e n : 0 <= shr_m mrs -> 0 <= shr_m (shr mrs e n).1.
Proof.
  intros H. destruct n as [|p|p]; simpl; try done.
  by apply (iter_pos_invariant (fun r => 0 <= shr_m r)), H; apply shr_1_nonneg.
Qed.

Lemma shr_fexp_nonneg m e l : 0 <= m -> 0 <= shr_m (shr_fexp prec emax m e l).1.
Proof.
  intros H. unfold shr_fexp. apply shr_nonneg.
  by destruct l as [|[]].
Qed.

Lemma round_nearest_even_nonneg m l : 0 <= m -> 0 <= round_nearest_even m l.
Proof. intros H. destruct l as [|[]]; simpl; try lia. destruct (Z.even m); lia. Qed.

Lemma binary_round_aux_shape s m e l :
  0 <= m ->
  binary_round_aux prec emax s m e l = S754_zero s \/
  (exists m' e', binary_round_aux prec emax s m e l = S754_finite s m' e') \/
  binary_round_aux prec emax s m e l = S754_infinity s.
Proof.
  intros Hm. unfold binary_round_aux.
  pose proof (shr_fexp_nonneg m e l Hm) as H1.
  destruct (shr_fexp prec emax m e l) as [mrs' e']. simpl in H1.
  pose proof (shr_fexp_nonneg _ e' loc_Exact
                (round_nearest_even_nonneg _ (loc_of_shr_record mrs') H1)) as H2.
  destruct (shr_fexp prec emax _ e' loc_Exact) as [mrs'' e'']. simpl in H2.
  destruct (shr_m mrs'') as [|p|p]; [by left| |lia].
  destruct (e'' <=? emax - prec); eauto.
Qed.

Lemma digits2_pos_size p : digits2_pos p = Pos.size p.
Proof. induction p as [p IH|p IH|]; simpl; by rewrite ?IH. Qed.

Lemma digits2_pos_bounds p :
  2 ^ (Zpos (digits2_pos p) - 1) <= Zpos p < 2 ^ Zpos (digits2_pos p).
Proof.
  rewrite digits2_pos_size.
  assert (H2 : 2 ^ Zpos (Pos.size p) = 2 * 2 ^ (Zpos (Pos.size p) - 1)).
  { rewrite <- Z.pow_succ_r by lia. f_equal. lia. }
  pose proof (Pos.size_gt p) as Hgt. pose proof (Pos.size_le p) as Hle.
  apply Pos2Z.pos_lt_pos in Hgt. apply Pos2Z.pos_le_pos in Hle.
  rewrite Pos2Z.inj_pow in Hgt, Hle.
  rewrite (Pos2Z.inj_xO p) in Hle. lia.
Qed.

Lemma iter_pos_nat {A} (f : A -> A) p a :
  SpecFloat.iter_pos f p a = Nat.iter (Pos.to_nat p) f a.
Proof.
  revert a. induction p as [p IH|p IH|]; intros a; cbn [SpecFloat.iter_pos].
  - rewrite !IH, Pos2Nat.inj_xI, !Nat.iter_swap.
    cbn [Nat.mul]. by rewrite Nat.iter_succ, Nat.add_0_r, Nat.iter_add.
  - rewrite !IH, Pos2Nat.inj_xO. cbn [Nat.mul].
    by rewrite Nat.add_0_r, Nat.iter_add.
  - done.
Qed.

Lemma shr_1_div2 m r s :
  0 <= m -> shr_1 (Build_shr_record m r s) = Build_shr_record (Z.div2 m) (Z.odd m) (r || s).
Proof. intros Hm. destruct m as [|[p|p|]|p]; try done; lia. Qed.

(** After [k + 1] one-bit shifts of an exact mantissa [m]: the quotient,
    the round bit and the sticky bit. *)
Lemma shr_steps k m :
  0 <= m ->
  exists q r s low,
    Nat.iter (S k) shr_1 (Build_shr_record m false false) = Build_shr_record q r s /\
    0 <= q /\
    m = (2 * q + Z.b2z r) * 2 ^ Z.of_nat k + low /\
    0 <= low < 2 ^ Z.of_nat k /\
    (s = false <-> low = 0).
Proof.
  intros Hm. induction k as [|k IH].
  - exists (Z.div2 m), (Z.odd m), false, 0.
    change (Nat.iter 1 shr_1 ?r) with (shr_1 r).
    rewrite shr_1_div2 by done. split; [done|].
    pose proof (Z.div2_odd m). pose proof (Z.div2_nonneg m).
    change (2 ^ Z.of_nat 0) with 1. repeat split; try lia.
  - destruct IH as (q & r & s & low & Hit & Hq & Heq & Hlow & Hs).
    exists (Z.div2 q), (Z.odd q), (r || s), (Z.b2z r * 2 ^ Z.of_nat k + low).
    rewrite Nat.iter_succ, Hit, shr_1_div2 by done. split; [done|].
    pose proof (Z.div2_odd q) as Hq2. pose proof (Z.div2_nonneg q).
    rewrite Nat2Z.inj_succ, Z.pow_succ_r by lia.
    assert (HT : 0 < 2 ^ Z.of_nat k) by (apply Z.pow_pos_nonneg; lia).
    revert Heq Hlow Hs HT. generalize (2 ^ Z.of_nat k). intros T Heq Hlow Hs HT.
    split; [lia|]. split.
    { rewrite Heq. rewrite Hq2 at 1. ring. }
    split.
    { destruct r; simpl; lia. }
    split.
    { intros [-> ->]%orb_false_iff. simpl. lia. }
    intros H1. destruct r; simpl in *; [lia|]. apply Hs. lia.
Qed.


Lemma shr_round m e p :
  0 <= m ->
  let '(mrs, e') := shr (Build_shr_record m false false) e (Zpos p) in
  let M := round_nearest_even (shr_m mrs) (loc_of_shr_record mrs) in
  e' = e + Zpos p /\ 0 <= M /\ nearest_even M m (2 ^ (Zpos p - 1)).
Proof.
  intros Hm. cbn [shr]. rewrite iter_pos_nat.
  destruct (Pos2Nat.is_succ p) as [k Hk]. rewrite Hk.
  replace (Zpos p - 1) with (Z.of_nat k) by lia.
  destruct (shr_steps k m Hm) as (q & r & s & low & -> & Hq & Heq & Hlow & Hs).
  cbn zeta. split; [done|].
  assert (HT : 0 < 2 ^ Z.of_nat k) by (apply Z.pow_pos_nonneg; lia).
  revert Heq Hlow HT. generalize (2 ^ Z.of_nat k). intros T Heq Hlow HT.
  unfold nearest_even.
  destruct r, s; cbn [shr_m loc_of_shr_record round_nearest_even Z.b2z] in *.
  - assert (low <> 0) by (intros ?; by apply Hs in H).
    split; [lia|]. split; [nia|]. split; intros; nia.
  - assert (low = 0) by (by apply Hs). subst low.
    destruct (Z.even q) eqn:Hev.
    + split; [lia|]. split; [nia|]. split; [intros; nia|done].
    + split; [lia|]. split; [nia|].
      assert (Z.even (q + 1) = true).
      { rewrite Z.add_1_r, Z.even_succ, <- Z.negb_even, Hev. done. }
      split; [done|intros; nia].
  - assert (low <> 0) by (intros ?; by apply Hs in H).
    split; [lia|]. split; [nia|]. split; intros; nia.
  - assert (low = 0) by (by apply Hs). subst low.
    split; [lia|]. split; [nia|]. split; intros; nia.
Qed.


Lemma shr_zero e n : shr_m (shr (Build_shr_record 0 false false) e n).1 = 0.
Proof.
  destruct n as [|p|p]; simpl; try done.
  apply (iter_pos_invariant (fun r => shr_m r = 0)); [|done].
  intros [m r s]; simpl. by intros ->.
Qed.

Lemma fexp_ge_emin a : -1074 <= fexp prec emax a.
Proof. unfold fexp, emin, prec, emax. lia. Qed.

Lemma fexp_eq a : fexp prec emax a = Z.max (a - 53) (-1074).
Proof. reflexivity. Qed.

Lemma pow2_lt_inv a b : 0 <= b -> 2 ^ a < 2 ^ b -> a < b.
Proof. intros Hb H. apply (Z.pow_lt_mono_r_iff 2); lia. Qed.

Lemma pow2_le a b : 0 <= a <= b -> 2 ^ a <= 2 ^ b.
Proof. intros H. apply Z.pow_le_mono_r; lia. Qed.

Lemma second_shift s M E :
  -1074 <= E -> 0 <= M <= 2 ^ 53 ->
  (let '(mrs, e') := shr_fexp prec emax M E loc_Exact in
   match shr_m mrs with
   | Z0 => S754_zero s
   | Zpos q => if e' <=? emax - prec then S754_finite s q e' else S754_infinity s
   | Zneg _ => S754_nan
   end) = finish s M E.
Proof.
  intros HE HM. unfold shr_fexp, finish.
  destruct M as [|q|q]; [| |lia].
  - pose proof (shr_zero E (fexp prec emax (Zdigits2 0 + E) - E)) as H0.
    cbn [shr_record_of_loc].
    destruct (shr _ E _) as [mrs e']. simpl in H0. by rewrite H0.
  - cbn [Zdigits2 shr_record_of_loc].
    pose proof (digits2_pos_bounds q) as [Hlo Hhi].
    assert (Hd : 0 < Zpos (digits2_pos q)) by lia.
    destruct (Z.eqb_spec (Zpos q) (2 ^ 53)) as [Heq|Hne].
    + assert (Zpos (digits2_pos q) = 54) as ->.
      { rewrite Heq in Hlo, Hhi.
        assert (Zpos (digits2_pos q) - 1 < 54).
        { apply pow2_lt_inv; [lia|]. change (2 ^ 54) with (2 * 2 ^ 53). lia. }
        assert (53 < Zpos (digits2_pos q)) by (apply pow2_lt_inv; lia).
        lia. }
      rewrite fexp_eq. replace (Z.max (54 + E - 53) (-1074) - E) with 1 by lia.
      injection Heq as ->. reflexivity.
    + assert (Zpos (digits2_pos q) <= 53).
      { assert (Zpos (digits2_pos q) - 1 < 53); [|lia].
        apply pow2_lt_inv; [lia|]. lia. }
      rewrite fexp_eq.
      destruct (Z.max (Zpos (digits2_pos q) + E - 53) (-1074) - E) as [|p|p] eqn:Hn;
        [reflexivity|lia|reflexivity].
Qed.


Lemma pow2_pos a : 0 <= a -> 0 < 2 ^ a.
Proof. intros. apply Z.pow_pos_nonneg; lia. Qed.

Lemma pow2_split a b : 0 <= a -> 0 <= b -> 2 ^ (a + b) = 2 ^ a * 2 ^ b.
Proof. intros. apply Z.pow_add_r; lia. Qed.

Lemma round_exact s m e :
  let E := fexp prec emax (Zpos (digits2_pos m) + e) in
  -2200 <= e -> e <= E ->
  exists M,
    0 <= M <= 2 ^ 53 /\ near M E (Zpos m) e /\
    binary_round_aux prec emax s (Zpos m) e loc_Exact = finish s M E.
Proof.
  intros E He HE. unfold binary_round_aux, shr_fexp. cbn [Zdigits2].
  fold E. cbn [shr_record_of_loc].
  pose proof (digits2_pos_bounds m) as [Hlo Hhi].
  pose proof (fexp_ge_emin (Zpos (digits2_pos m) + e)) as Hemin. fold E in Hemin.
  assert (HEd : Zpos (digits2_pos m) + e - 53 <= E).
  { unfold E. rewrite fexp_eq. lia. }
  pose proof (pow2_pos (e + 2200) ltac:(lia)) as HA.
  destruct (E - e) as [|p|p] eqn:Hn; [| |lia].
  - assert (E = e) as HEe by lia.
    exists (Zpos m). cbn [shr shr_m loc_of_shr_record round_nearest_even].
    assert (Zpos m <= 2 ^ 53).
    { assert (2 ^ Zpos (digits2_pos m) <= 2 ^ 53) by (apply pow2_le; lia). lia. }
    split; [lia|]. split.
    + unfold near, scaled. rewrite HEe. repeat split; try lia.
    + rewrite <- HEe. apply second_shift; lia.
  - pose proof (shr_round (Zpos m) e p ltac:(lia)) as Hr.
    destruct (shr _ e (Zpos p)) as [mrs e'].
    destruct Hr as (-> & HM0 & Hnear).
    set (M := round_nearest_even (shr_m mrs) (loc_of_shr_record mrs)) in *.
    replace (e + Zpos p) with E by lia.
    assert (HT : 0 < 2 ^ (Zpos p - 1)) by (apply pow2_pos; lia).
    assert (HP : 2 ^ (E + 2200) = 2 ^ (Zpos p - 1) * (2 * 2 ^ (e + 2200))).
    { replace (E + 2200) with ((Zpos p - 1) + Z.succ (e + 2200)) by lia.
      rewrite pow2_split, Z.pow_succ_r by lia. done. }
    assert (Hd54 : 2 ^ Zpos (digits2_pos m) <= 2 ^ 54 * 2 ^ (Zpos p - 1)).
    { rewrite <- pow2_split by lia. apply pow2_le. lia. }
    destruct Hnear as (Hb & Hlt & Hgt).
    assert (HM : M <= 2 ^ 53).
    { change (2 ^ 54) with (2 * 2 ^ 53) in Hd54.
      revert Hb Hd54 HT Hhi. generalize (2 ^ (Zpos p - 1)) (2 ^ 53). intros; nia. }
    exists M. split; [lia|]. split.
    + unfold near, scaled. rewrite HP.
      revert Hb Hlt Hgt HT HA. generalize (2 ^ (Zpos p - 1)) (2 ^ (e + 2200)).
      intros T A Hb Hlt Hgt HT HA. split; [nia|].
      split; intros Heq; [apply Hlt|apply Hgt]; nia.
    + apply second_shift; lia.
Qed.


Lemma finish_build s M E : finish s M E = build s (norm M E).1 (norm M E).2.
Proof.
  unfold finish, norm, build. destruct M as [|q|q]; try done.
  by destruct (Z.pos q =? 2 ^ 53).
Qed.

Lemma scaled_norm M E :
  -2200 <= E -> scaled (norm M E).1 (norm M E).2 = scaled M E.
Proof.
  intros HE. unfold norm, scaled.
  destruct (Z.eqb_spec M (2 ^ 53)) as [->|]; [|done]. cbn [fst snd].
  replace (E + 1 + 2200) with (Z.succ (E + 2200)) by lia.
  rewrite Z.pow_succ_r by lia. change (2 ^ 53) with (2 ^ 52 * 2). ring.
Qed.

Lemma near_lower M E m e d :
  near M E m e -> -2200 <= e -> -2200 <= E -> 0 <= d - 1 ->
  E = d + e - 53 -> 2 ^ (d - 1) <= m -> 2 ^ 52 <= M.
Proof.
  intros ((_ & Hhi) & _) He HE0 Hd HE Hm. unfold scaled in Hhi.
  pose proof (pow2_pos (E + 2200) ltac:(lia)) as HP.
  assert (H1 : 2 ^ 52 * 2 ^ (E + 2200) = 2 ^ (d - 1) * 2 ^ (e + 2200)).
  { rewrite <- !pow2_split by lia. f_equal. lia. }
  pose proof (pow2_pos (e + 2200) ltac:(lia)) as HA.
  assert (H2 : 2 ^ 52 * 2 ^ (E + 2200) <= m * 2 ^ (e + 2200)) by (rewrite H1; nia).
  change (2 ^ 52) with 4503599627370496 in *.
  revert Hhi H2 HP. generalize (2 ^ (E + 2200)) (m * 2 ^ (e + 2200)).
  intros P V Hhi H2 HP. nia.
Qed.

Lemma norm_canonical M E m e :
  let d := Zpos (digits2_pos m) in
  E = fexp prec emax (d + e) -> -2200 <= e ->
  0 <= M <= 2 ^ 53 -> near M E (Zpos m) e ->
  canonical_pair (norm M E).1 (norm M E).2.
Proof.
  intros d HE He HM Hnear. pose proof (digits2_pos_bounds m) as [Hlo _].
  assert (-1074 <= E) by (rewrite HE; apply fexp_ge_emin).
  assert (Hlow : -1074 < E -> 2 ^ 52 <= M).
  { intros HE1. apply (near_lower M E (Zpos m) e d); try done; try lia.
    rewrite HE, fexp_eq in *. lia. }
  unfold norm, canonical_pair.
  destruct (Z.eqb_spec M (2 ^ 53)) as [->|Hne]; cbn [fst snd].
  - repeat split; lia.
  - repeat split; lia.
Qed.

Lemma canonical_pair_compare a ea b eb :
  canonical_pair a ea -> canonical_pair b eb ->
  scaled a ea <= scaled b eb ->
  SFltb (build false b eb) (build false a ea) = false.
Proof.
  intros (Ha & Hea & Hna) (Hb & Heb & Hnb) Hle. unfold scaled in Hle.
  pose proof (pow2_pos (ea + 2200) ltac:(lia)) as HPa.
  pose proof (pow2_pos (eb + 2200) ltac:(lia)) as HPb.
  change (2 ^ 53) with (2 * 2 ^ 52) in *.
  unfold build, SFltb.
  destruct a as [|a|a]; [| |lia].
  { destruct b as [|b|b]; [done| |lia]. by destruct (eb <=? emax - prec). }
  destruct b as [|b|b]; [nia| |lia].
  destruct (Z.leb_spec ea (emax - prec)) as [Hfa|Hia];
    destruct (Z.leb_spec eb (emax - prec)) as [Hfb|Hib]; try done.
  - cbn [SFcompare]. destruct (Z.compare_spec eb ea) as [->|Hlt|Hgt]; [| |done].
    + rewrite Pos.compare_cont_spec. cbn [Pos.switch_Eq].
      destruct (Pos.compare_spec b a) as [->|Hba|Hba]; try done.
      assert (Zpos b < Zpos a) by lia. nia.
    + exfalso.
      assert (H2 : 2 ^ (ea + 2200) = 2 ^ (ea - eb) * 2 ^ (eb + 2200)).
      { rewrite <- pow2_split by lia. f_equal. lia. }
      assert (H3 : 2 <= 2 ^ (ea - eb)).
      { change 2 with (2 ^ 1) at 1. apply pow2_le. lia. }
      specialize (Hna ltac:(lia)).
      revert Hle H2 H3 HPa HPb Ha Hb Hna.
      generalize (2 ^ (ea + 2200)) (2 ^ (eb + 2200)) (2 ^ (ea - eb)) (2 ^ 52).
      intros; nia.
  - exfalso. unfold emax, prec in *.
    assert (H2 : 2 ^ (ea + 2200) = 2 ^ (ea - eb) * 2 ^ (eb + 2200)).
    { rewrite <- pow2_split by lia. f_equal. lia. }
    assert (H3 : 2 <= 2 ^ (ea - eb)).
    { change 2 with (2 ^ 1) at 1. apply pow2_le. lia. }
    specialize (Hna ltac:(lia)).
    revert Hle H2 H3 HPa HPb Ha Hb Hna.
    generalize (2 ^ (ea + 2200)) (2 ^ (eb + 2200)) (2 ^ (ea - eb)) (2 ^ 52).
    intros; nia.
Qed.


Lemma digits_monotone m1 e1 m2 e2 :
  -2200 <= e1 -> -2200 <= e2 ->
  scaled (Zpos m1) e1 <= scaled (Zpos m2) e2 ->
  Zpos (digits2_pos m1) + e1 <= Zpos (digits2_pos m2) + e2.
Proof.
  intros He1 He2 Hle. unfold scaled in Hle.
  pose proof (digits2_pos_bounds m1) as [Hlo1 _].
  pose proof (digits2_pos_bounds m2) as [_ Hhi2].
  pose proof (pow2_pos (e1 + 2200) ltac:(lia)) as HA1.
  pose proof (pow2_pos (e2 + 2200) ltac:(lia)) as HA2.
  assert (H : 2 ^ (Zpos (digits2_pos m1) - 1 + (e1 + 2200))
              < 2 ^ (Zpos (digits2_pos m2) + (e2 + 2200))).
  { rewrite (pow2_split (Zpos (digits2_pos m1) - 1)), (pow2_split (Zpos (digits2_pos m2))) by lia.
    nia. }
  apply pow2_lt_inv in H; lia.
Qed.

Lemma near_monotone M1 E1 m1 e1 M2 E2 m2 e2 :
  E1 = fexp prec emax (Zpos (digits2_pos m1) + e1) ->
  E2 = fexp prec emax (Zpos (digits2_pos m2) + e2) ->
  -2200 <= e1 -> -2200 <= e2 ->
  0 <= M1 <= 2 ^ 53 -> 0 <= M2 <= 2 ^ 53 ->
  near M1 E1 (Zpos m1) e1 -> near M2 E2 (Zpos m2) e2 ->
  scaled (Zpos m1) e1 <= scaled (Zpos m2) e2 ->
  scaled M1 E1 <= scaled M2 E2.
Proof.
  intros HE1 HE2 He1 He2 HM1 HM2 Hn1 Hn2 Hle.
  pose proof (digits_monotone m1 e1 m2 e2 He1 He2 Hle) as Hd.
  assert (HE : E1 <= E2) by (rewrite HE1, HE2, !fexp_eq; lia).
  assert (HE1min : -1074 <= E1) by (rewrite HE1; apply fexp_ge_emin).
  pose proof (pow2_pos (E1 + 2200) ltac:(lia)) as HP1.
  destruct (Z.eq_dec E1 E2) as [Heq|Hne].
  - clear HE2. subst E2.
    destruct Hn1 as ((Hlo1 & _) & Hev1 & _).
    destruct Hn2 as ((_ & Hhi2) & _ & Hev2).
    unfold scaled in *.
    revert Hlo1 Hhi2 Hev1 Hev2 Hle HP1.
    generalize (Zpos m1 * 2 ^ (e1 + 2200)) (Zpos m2 * 2 ^ (e2 + 2200))
               (2 ^ (E1 + 2200)).
    intros V1 V2 P Hlo1 Hhi2 Hev1 Hev2 Hle HP.
    assert (HM : M1 <= M2 + 1) by nia.
    destruct (Z.eq_dec M1 (M2 + 1)) as [->|]; [|nia].
    exfalso.
    assert (Z.even (M2 + 1) = true) by (apply Hev1; nia).
    assert (Z.even M2 = true) by (apply Hev2; nia).
    rewrite Z.add_1_r, Z.even_succ, <- Z.negb_even in *.
    destruct (Z.even M2); done.
  - assert (HM2' : 2 ^ 52 <= M2).
    { pose proof (digits2_pos_bounds m2) as [Hlo2 _].
      apply (near_lower M2 E2 (Zpos m2) e2 (Zpos (digits2_pos m2)));
        try done; try lia.
      rewrite HE2, fexp_eq in *. lia. }
    assert (H2 : 2 ^ (E2 + 2200) = 2 ^ (E2 - E1) * 2 ^ (E1 + 2200)).
    { rewrite <- pow2_split by lia. f_equal. lia. }
    assert (H3 : 2 <= 2 ^ (E2 - E1)).
    { change 2 with (2 ^ 1) at 1. apply pow2_le. lia. }
    unfold scaled. rewrite H2. change (2 ^ 53) with (2 * 2 ^ 52) in *.
    revert HM1 HM2 HM2' H3 HP1.
    generalize (2 ^ (E1 + 2200)) (2 ^ (E2 - E1)) (2 ^ 52).
    intros P D C ? ? ? ? ?.
    assert (M1 <= M2 * D) by nia. nia.
Qed.

Lemma binary_round_aux_opp m e l :
  binary_round_aux prec emax true m e l =
  SFopp (binary_round_aux prec emax false m e l).
Proof.
  unfold binary_round_aux.
  destruct (shr_fexp prec emax m e l) as [mrs' e'].
  destruct (shr_fexp prec emax _ e' loc_Exact) as [mrs'' e''].
  destruct (shr_m mrs''); try done. by destruct (e'' <=? emax - prec).
Qed.

(** Rounding an exact positive value is monotone. *)
Lemma round_exact_monotone m1 e1 m2 e2 :
  -2200 <= e1 -> -2200 <= e2 ->
  e1 <= fexp prec emax (Zpos (digits2_pos m1) + e1) ->
  e2 <= fexp prec emax (Zpos (digits2_pos m2) + e2) ->
  scaled (Zpos m1) e1 <= scaled (Zpos m2) e2 ->
  SFltb (binary_round_aux prec emax false (Zpos m2) e2 loc_Exact)
        (binary_round_aux prec emax false (Zpos m1) e1 loc_Exact) = false.
Proof.
  intros He1 He2 Hn1 Hn2 Hle.
  destruct (round_exact false m1 e1 He1 Hn1) as (M1 & HM1 & Hnear1 & ->).
  destruct (round_exact false m2 e2 He2 Hn2) as (M2 & HM2 & Hnear2 & ->).
  rewrite !finish_build.
  pose proof (fexp_ge_emin (Zpos (digits2_pos m1) + e1)).
  pose proof (fexp_ge_emin (Zpos (digits2_pos m2) + e2)).
  apply canonical_pair_compare.
  - by apply (norm_canonical _ _ m1 e1).
  - by apply (norm_canonical _ _ m2 e2).
  - rewrite !scaled_norm by lia.
    by apply (near_monotone _ _ m1 e1 _ _ m2 e2).
Qed.


Lemma valid_canonical_pair m e :
  bounded prec emax m e = true ->
  canonical_pair (Zpos m) e /\ e <= emax - prec /\
  e = fexp prec emax (Zpos (digits2_pos m) + e).
Proof.
  unfold bounded, canonical_mantissa.
  intros [Hc%Z.eqb_eq He%Z.leb_le]%andb_true_iff.
  pose proof (digits2_pos_bounds m) as [Hlo Hhi].
  rewrite fexp_eq in Hc. split; [|done].
  assert (Hd : Zpos (digits2_pos m) <= 53) by lia.
  assert (2 ^ Zpos (digits2_pos m) <= 2 ^ 53) by (apply pow2_le; lia).
  split; [lia|]. split; [lia|]. intros He1.
  assert (Zpos (digits2_pos m) = 53) as Hd53 by lia.
  by rewrite Hd53 in Hlo.
Qed.

Lemma build_finite m e :
  e <= emax - prec -> build false (Zpos m) e = S754_finite false m e.
Proof. intros He%Z.leb_le. unfold build. by rewrite He. Qed.

Lemma SFcompare_Eq_inv ma ea mb eb :
  SFcompare (S754_finite false ma ea) (S754_finite false mb eb) = Some Eq ->
  ea = eb /\ ma = mb.
Proof.
  cbn [SFcompare]. destruct (Z.compare_spec ea eb) as [->|?|?]; try done.
  rewrite Pos.compare_cont_spec. cbn [Pos.switch_Eq].
  destruct (Pos.compare_spec ma mb) as [->|?|?]; done.
Qed.

(** On valid positive floats, [<=] is the order of the values. *)
Lemma SFleb_scaled ma ea mb eb :
  bounded prec emax ma ea = true -> bounded prec emax mb eb = true ->
  SFleb (S754_finite false ma ea) (S754_finite false mb eb) = true ->
  scaled (Zpos ma) ea <= scaled (Zpos mb) eb.
Proof.
  intros (Hca & Hea & _)%valid_canonical_pair (Hcb & Heb & _)%valid_canonical_pair Hle.
  destruct (Z.le_gt_cases (scaled (Zpos ma) ea) (scaled (Zpos mb) eb)) as [|Hgt];
    [done|exfalso].
  pose proof (canonical_pair_compare _ _ _ _ Hcb Hca ltac:(lia)) as Hlt.
  rewrite !build_finite in Hlt by done. unfold SFleb, SFltb in *.
  destruct (SFcompare _ _) as [[]|] eqn:Hcmp; try done.
  apply SFcompare_Eq_inv in Hcmp as [-> [= ->]]. lia.
Qed.

Lemma product_scaled mc ec m1 e1 m2 e2 :
  -1074 <= ec -> -1074 <= e1 -> -1074 <= e2 ->
  scaled (Zpos m1) e1 <= scaled (Zpos m2) e2 ->
  scaled (Zpos (mc * m1)) (ec + e1) <= scaled (Zpos (mc * m2)) (ec + e2).
Proof.
  intros Hec He1 He2. unfold scaled. rewrite !Pos2Z.inj_mul.
  replace (e1 + 2200) with ((e1 + 1126) + 1074) by lia.
  replace (e2 + 2200) with ((e2 + 1126) + 1074) by lia.
  replace (ec + e1 + 2200) with ((ec + 1074) + (e1 + 1126)) by lia.
  replace (ec + e2 + 2200) with ((ec + 1074) + (e2 + 1126)) by lia.
  rewrite (pow2_split (e1 + 1126) 1074), (pow2_split (e2 + 1126) 1074),
    (pow2_split (ec + 1074) (e1 + 1126)), (pow2_split (ec + 1074) (e2 + 1126))
    by lia.
  pose proof (pow2_pos (ec + 1074) ltac:(lia)) as HZ.
  pose proof (pow2_pos 1074 ltac:(lia)) as HY.
  revert HZ HY.
  generalize (2 ^ (ec + 1074)) (2 ^ 1074) (2 ^ (e1 + 1126)) (2 ^ (e2 + 1126)).
  intros Z Y X1 X2 HZ HY Hle.
  assert (Zpos m1 * X1 <= Zpos m2 * X2) by nia.
  replace (Zpos mc * Zpos m1 * (Z * X1)) with (Zpos mc * Z * (Zpos m1 * X1)) by ring.
  replace (Zpos mc * Zpos m2 * (Z * X2)) with (Zpos mc * Z * (Zpos m2 * X2)) by ring.
  apply Z.mul_le_mono_nonneg_l; [nia|done].
Qed.

Lemma product_fine mc ec mx ex :
  bounded prec emax mc ec = true -> bounded prec emax mx ex = true ->
  ec + ex <= fexp prec emax (Zpos (digits2_pos (mc * mx)) + (ec + ex)).
Proof.
  intros (Hcc & _ & Hfc)%valid_canonical_pair (Hcx & _ & Hfx)%valid_canonical_pair.
  pose proof (digits2_pos_bounds mc) as [Hloc _].
  pose proof (digits2_pos_bounds mx) as [Hlox _].
  pose proof (digits2_pos_bounds (mc * mx)) as [_ Hhi].
  rewrite Pos2Z.inj_mul in Hhi.
  assert (Hd : Zpos (digits2_pos mc) - 1 + (Zpos (digits2_pos mx) - 1)
               < Zpos (digits2_pos (mc * mx))).
  { apply pow2_lt_inv; [lia|]. rewrite pow2_split by lia. nia. }
  rewrite fexp_eq in *. lia.
Qed.

Lemma SFcompare_opp a b : SFcompare (SFopp a) (SFopp b) = SFcompare b a.
Proof.
  destruct a as [sa|sa| |sa ma ea], b as [sb|sb| |sb mb eb]; simpl;
    try done; try (by destruct sa); try (by destruct sb);
    try (by destruct sa, sb).
  destruct sa, sb; simpl; try done;
    rewrite (Z.compare_antisym ea eb); destruct (ea ?= eb)%Z; simpl; try done.
  - by rewrite (Pos.compare_cont_antisym mb ma Eq).
  - by rewrite (Pos.compare_cont_antisym ma mb Eq).
Qed.

Lemma SFltb_opp a b : SFltb (SFopp a) (SFopp b) = SFltb b a.
Proof. unfold SFltb. by rewrite SFcompare_opp. Qed.


Lemma SFmul_finite s1 m1 e1 s2 m2 e2 :
  SF64mul (S754_finite s1 m1 e1) (S754_finite s2 m2 e2) =
  binary_round_aux prec emax (xorb s1 s2) (Zpos (m1 * m2)) (e1 + e2) loc_Exact.
Proof. reflexivity. Qed.

Lemma SFltb_nonneg_nonpos a b :
  (a = S754_zero false \/ (exists m e, a = S754_finite false m e) \/ a = S754_infinity false) ->
  (b = S754_zero true \/ (exists m e, b = S754_finite true m e) \/ b = S754_infinity true) ->
  SFltb a b = false.
Proof. intros [->|[(?&?&->)| ->]] [->|[(?&?&->)| ->]]; done. Qed.

Lemma SFltb_nonneg_zero a s :
  (a = S754_zero false \/ (exists m e, a = S754_finite false m e) \/ a = S754_infinity false) ->
  SFltb a (S754_zero s) = false.
Proof. intros [->|[(?&?&->)| ->]]; done. Qed.

Lemma SFltb_zero_nonpos b s :
  (b = S754_zero true \/ (exists m e, b = S754_finite true m e) \/ b = S754_infinity true) ->
  SFltb (S754_zero s) b = false.
Proof. intros [->|[(?&?&->)| ->]]; done. Qed.

(** Multiplication by a non-negative factor never reverses an order. *)
Lemma SFmul_monotone C A B :
  valid_binary C = true -> valid_binary A = true -> valid_binary B = true ->
  SFleb (S754_zero false) C = true -> SFleb A B = true ->
  SFltb (SF64mul C B) (SF64mul C A) = false.
Proof.
  intros HC HA HB H0 Hle.
  destruct C as [sc|sc| |sc mc ec]; [| | done|].
  - destruct A as [sa|sa| |sa ma ea], B as [sb|sb| |sb mb eb]; done.
  - destruct sc; [done|].
    destruct A as [[]|[]| |[] ma ea], B as [[]|[]| |[] mb eb]; done.
  - destruct sc; [done|]. clear H0. simpl in HC.
    pose proof (valid_canonical_pair _ _ HC) as ((_ & Hec & _) & _ & _).
    destruct A as [sa|sa| |sa ma ea], B as [sb|sb| |sb mb eb];
      try done; try (by destruct sa); try (by destruct sb);
      try (by destruct sa, sb).
    + (* zero, finite *)
      destruct sb; [done|]. rewrite SFmul_finite. apply SFltb_nonneg_zero.
      by apply binary_round_aux_shape.
    + (* infinity, finite *)
      destruct sa; [|done]. rewrite SFmul_finite. cbn [SF64mul SFmul xorb].
      destruct (binary_round_aux_shape sb (Zpos (mc * mb)) (ec + eb)
                  loc_Exact ltac:(lia)) as [->|[(?&?&->)| ->]];
        by destruct sb.
    + (* finite, zero *)
      destruct sa; [|done]. rewrite SFmul_finite. apply SFltb_zero_nonpos.
      by apply binary_round_aux_shape.
    + (* finite, infinity *)
      destruct sb; [done|]. rewrite SFmul_finite. cbn [SF64mul SFmul xorb].
      destruct (binary_round_aux_shape sa (Zpos (mc * ma)) (ec + ea)
                  loc_Exact ltac:(lia)) as [->|[(?&?&->)| ->]];
        by destruct sa.
    + (* finite, finite *)
      simpl in HA, HB. rewrite !SFmul_finite.
      pose proof (valid_canonical_pair _ _ HA) as ((_ & Hea & _) & _ & _).
      pose proof (valid_canonical_pair _ _ HB) as ((_ & Heb & _) & _ & _).
      destruct sa, sb; cbn [xorb].
      * rewrite !binary_round_aux_opp, SFltb_opp.
        apply round_exact_monotone; try lia; try (by apply product_fine).
        apply product_scaled; try lia. apply SFleb_scaled; try done.
        revert Hle. unfold SFleb. rewrite (SFcompare_antisym
          (S754_finite false ma ea) (S754_finite false mb eb)).
        cbn [SFcompare]. destruct (ea ?= eb)%Z; simpl;
          try done; by destruct (Pos.compare_cont Eq ma mb).
      * apply SFltb_nonneg_nonpos; by apply binary_round_aux_shape.
      * done.
      * apply round_exact_monotone; try lia; try (by apply product_fine).
        apply product_scaled; try lia. by apply SFleb_scaled.
Qed.


Lemma digits2_pos_unique p k :
  2 ^ (k - 1) <= Zpos p < 2 ^ k -> Zpos (digits2_pos p) = k.
Proof.
  intros [Hlo Hhi]. pose proof (digits2_pos_bounds p) as [Hlo' Hhi'].
  assert (0 < k).
  { destruct (Z.lt_ge_cases 0 k) as [|Hk]; [done|].
    destruct (Z.eq_dec k 0) as [->|Hk0]; [simpl in Hhi; lia|].
    rewrite (Z.pow_neg_r 2 k) in Hhi by lia. lia. }
  assert (Zpos (digits2_pos p) - 1 < k) by (apply pow2_lt_inv; lia).
  assert (k - 1 < Zpos (digits2_pos p)) by (apply pow2_lt_inv; lia).
  lia.
Qed.

(** A product with [2^52 * 2^-52], that is with one, is exact. *)
Lemma round_exact_shifted s m e :
  bounded prec emax m e = true ->
  binary_round_aux prec emax s (Zpos (m * 4503599627370496)) (e + -52) loc_Exact
  = S754_finite s m e.
Proof.
  intros ((Hm & He & _) & Hmax & Hfexp)%valid_canonical_pair.
  pose proof (digits2_pos_bounds m) as [Hlo Hhi].
  assert (Hd : Zpos (digits2_pos (m * 4503599627370496)) = Zpos (digits2_pos m) + 52).
  { apply digits2_pos_unique. rewrite Pos2Z.inj_mul.
    replace (Zpos (digits2_pos m) + 52 - 1) with (Zpos (digits2_pos m) - 1 + 52) by lia.
    rewrite !pow2_split by lia. change (2 ^ 52) with 4503599627370496. lia. }
  destruct (round_exact s (m * 4503599627370496) (e + -52)) as (M & HM & Hnear & ->).
  { lia. }
  { rewrite Hd. replace (Zpos (digits2_pos m) + 52 + (e + -52))
      with (Zpos (digits2_pos m) + e) by lia. lia. }
  rewrite Hd in Hnear |- *.
  replace (Zpos (digits2_pos m) + 52 + (e + -52))
    with (Zpos (digits2_pos m) + e) in Hnear |- * by lia.
  rewrite <- Hfexp in Hnear |- *.
  assert (M = Zpos m) as ->.
  { destruct Hnear as ((H1 & H2) & _). unfold scaled in H1, H2.
    rewrite Pos2Z.inj_mul in H1, H2.
    replace (e + 2200) with (52 + (e + -52 + 2200)) in H1, H2 by lia.
    rewrite (pow2_split 52) in H1, H2 by lia.
    change (2 ^ 52) with 4503599627370496 in *.
    pose proof (pow2_pos (e + -52 + 2200) ltac:(lia)) as HA.
    revert H1 H2 HA. generalize (2 ^ (e + -52 + 2200)). intros; nia. }
  unfold finish. destruct (Z.eqb_spec (Zpos m) (2 ^ 53)) as [Heq|_]; [lia|].
  apply Z.leb_le in Hmax. by rewrite Hmax.
Qed.


(** *** The order of the values *)

Lemma scaled_below_beyond m e :
  bounded prec emax m e = true -> 0 < scaled (Zpos m) e < beyond.
Proof.
  intros ((Hm & He & _) & Hmax & _)%valid_canonical_pair.
  unfold scaled, beyond, emax, prec in *.
  pose proof (pow2_pos (e + 2200) ltac:(lia)) as HA.
  assert (H1 : 2 ^ (e + 2200) <= 2 ^ 3171) by (apply pow2_le; lia).
  assert (H2 : 2 ^ 4000 = 2 ^ 53 * 2 ^ 3171 * 2 ^ 776).
  { rewrite <- !Z.pow_add_r by lia. done. }
  assert (H3 : 1 <= 2 ^ 776) by (pose proof (pow2_pos 776 ltac:(lia)); lia).
  revert HA H1 H2 H3 Hm.
  generalize (2 ^ (e + 2200)) (2 ^ 3171) (2 ^ 776) (2 ^ 4000) (2 ^ 53).
  intros A B C D F HA H1 -> H3 Hm. split; [nia|].
  assert (Zpos m * A < F * B) by nia. nia.
Qed.

Lemma SFcompare_scaled ma ea mb eb :
  bounded prec emax ma ea = true -> bounded prec emax mb eb = true ->
  SFcompare (S754_finite false ma ea) (S754_finite false mb eb) =
  Some (scaled (Zpos ma) ea ?= scaled (Zpos mb) eb).
Proof.
  intros Ha Hb.
  pose proof (valid_canonical_pair _ _ Ha) as (Hca & Hea & _).
  pose proof (valid_canonical_pair _ _ Hb) as (Hcb & Heb & _).
  assert (exists c, SFcompare (S754_finite false ma ea) (S754_finite false mb eb)
                    = Some c) as [c Hc] by (by eexists).
  rewrite Hc. f_equal.
  destruct (Z.compare_spec (scaled (Zpos ma) ea) (scaled (Zpos mb) eb)) as [Heq|Hlt|Hgt].
  - pose proof (canonical_pair_compare _ _ _ _ Hca Hcb ltac:(lia)) as H1.
    pose proof (canonical_pair_compare _ _ _ _ Hcb Hca ltac:(lia)) as H2.
    rewrite !build_finite in H1, H2 by done. unfold SFltb in *.
    rewrite (SFcompare_antisym (S754_finite false ma ea)) in H1.
    rewrite Hc in H1, H2. by destruct c.
  - pose proof (canonical_pair_compare _ _ _ _ Hca Hcb ltac:(lia)) as H1.
    rewrite !build_finite in H1 by done. unfold SFltb in *.
    rewrite (SFcompare_antisym (S754_finite false ma ea)), Hc in H1.
    destruct c; try done.
    apply SFcompare_Eq_inv in Hc as [-> ->]. lia.
  - pose proof (canonical_pair_compare _ _ _ _ Hcb Hca ltac:(lia)) as H2.
    rewrite !build_finite in H2 by done. unfold SFltb in *.
    rewrite Hc in H2. destruct c; try done.
    apply SFcompare_Eq_inv in Hc as [-> ->]. lia.
Qed.

(** On valid floats other than NaN, [SFcompare] compares the values. *)
Lemma SFcompare_SFord a b :
  valid_binary a = true -> valid_binary b = true ->
  a <> S754_nan -> b <> S754_nan ->
  SFcompare a b = Some (SFord a ?= SFord b).
Proof.
  intros Ha Hb Hna Hnb.
  assert (Hbig : 0 < beyond) by (apply pow2_pos; lia).
  destruct a as [sa|sa| |sa ma ea]; [| |done|];
    (destruct b as [sb|sb| |sb mb eb]; [| |done|]);
    cbn [SFord valid_binary] in *;
    try (pose proof (scaled_below_beyond _ _ Ha) as Hsa);
    try (pose proof (scaled_below_beyond _ _ Hb) as Hsb).
  - done.
  - cbn [SFcompare]. f_equal.
    destruct sb; symmetry; [apply Z.compare_gt_iff|apply Z.compare_lt_iff]; lia.
  - cbn [SFcompare]. f_equal.
    destruct sb; symmetry; [apply Z.compare_gt_iff|apply Z.compare_lt_iff]; lia.
  - cbn [SFcompare]. f_equal.
    destruct sa; symmetry; [apply Z.compare_lt_iff|apply Z.compare_gt_iff]; lia.
  - cbn [SFcompare]. f_equal. destruct sa, sb; symmetry;
      [apply Z.compare_eq_iff|apply Z.compare_lt_iff|apply Z.compare_gt_iff
      |apply Z.compare_eq_iff]; lia.
  - cbn [SFcompare]. f_equal. destruct sa, sb; symmetry;
      first [apply Z.compare_lt_iff; lia|apply Z.compare_gt_iff; lia].
  - cbn [SFcompare]. f_equal.
    destruct sa; symmetry; [apply Z.compare_lt_iff|apply Z.compare_gt_iff]; lia.
  - cbn [SFcompare]. f_equal. destruct sa, sb; symmetry;
      first [apply Z.compare_lt_iff; lia|apply Z.compare_gt_iff; lia].
  - destruct sa, sb.
    + change (S754_finite true ma ea) with (SFopp (S754_finite false ma ea)).
      change (S754_finite true mb eb) with (SFopp (S754_finite false mb eb)).
      rewrite SFcompare_opp, (SFcompare_scaled mb eb ma ea Hb Ha).
      by rewrite Z.compare_opp.
    + cbn [SFcompare]. f_equal. symmetry. apply Z.compare_lt_iff. lia.
    + cbn [SFcompare]. f_equal. symmetry. apply Z.compare_gt_iff. lia.
    + by apply SFcompare_scaled.
Qed.

End Rounding.

(** *** IEEE 754 facts *)

Section Binary64.

Local Open Scope float_scope.

Lemma Prim2SF_nan : Prim2SF nan = S754_nan.
Proof. reflexivity. Qed.

Lemma is_nan_Prim2SF v : is_nan v = true <-> Prim2SF v = S754_nan.
Proof.
  unfold is_nan. rewrite FloatAxioms.eqb_spec. unfold SFeqb.
  destruct (Prim2SF v) as [s|s| |s m e]; simpl.
  - split; discriminate.
  - destruct s; split; discriminate.
  - done.
  - destruct s; rewrite Z.compare_refl, Pos.compare_cont_refl;
      split; discriminate.
Qed.

Lemma eq_nan v : Prim2SF v = S754_nan -> v = nan.
Proof. intros H. apply Prim2SF_inj. by rewrite H. Qed.

Lemma mul_nan_l v : nan * v = nan.
Proof. apply eq_nan. by rewrite mul_spec. Qed.

Lemma eqb_zero_Prim2SF v :
  (v =? 0) = true -> exists s, Prim2SF v = S754_zero s.
Proof.
  rewrite FloatAxioms.eqb_spec. unfold SFeqb. change (Prim2SF 0) with (S754_zero false).
  destruct (Prim2SF v) as [s|s| |s m e]; simpl; try discriminate.
  - eauto.
  - destruct s; discriminate.
  - destruct s; discriminate.
Qed.

(** A quotient by zero is NaN or an infinity. *)
Lemma div_zero v d :
  (d =? 0) = true ->
  v / d = nan \/ v / d = infinity \/ v / d = neg_infinity.
Proof.
  intros [s Hd]%eqb_zero_Prim2SF.
  assert (H : Prim2SF (v / d) = S754_nan \/ exists b, Prim2SF (v / d) = S754_infinity b).
  { rewrite div_spec, Hd. unfold SF64div.
    destruct (Prim2SF v) as [sv|sv| |sv mv ev]; simpl; eauto. }
  destruct H as [H|[[] H]].
  - left. by apply eq_nan.
  - right; right. by apply Prim2SF_inj.
  - right; left. by apply Prim2SF_inj.
Qed.


Lemma ltb_not_leb a b : (a <? b) = true -> (b <=? a) = false.
Proof.
  rewrite FloatAxioms.ltb_spec, FloatAxioms.leb_spec. unfold SFltb, SFleb.
  rewrite (SFcompare_antisym (Prim2SF a) (Prim2SF b)).
  by destruct (SFcompare (Prim2SF a) (Prim2SF b)) as [[]|].
Qed.

Lemma is_nan_not_leb_l a b : is_nan a = true -> (a <=? b) = false.
Proof.
  intros Ha%is_nan_Prim2SF. rewrite FloatAxioms.leb_spec. unfold SFleb.
  by rewrite Ha.
Qed.

Lemma is_nan_not_leb_r a b : is_nan b = true -> (a <=? b) = false.
Proof.
  intros Hb%is_nan_Prim2SF. rewrite FloatAxioms.leb_spec. unfold SFleb.
  rewrite Hb. by destruct (Prim2SF a).
Qed.

Lemma acos_host_conforms : acos_conforms acos_host.
Proof.
  split; intros v; unfold acos_host.
  - intros H. apply orb_true_iff in H as [H|H];
      [apply orb_true_iff in H as [H|H]|].
    + by rewrite (is_nan_not_leb_r _ _ H).
    + by rewrite (ltb_not_leb _ _ H), andb_false_r.
    + by rewrite (ltb_not_leb _ _ H).
  - intros -> ->. simpl. destruct (v =? 1); [done|].
    destruct (0 <=? acos_reduced v) eqn:H0; simpl; [|done].
    destruct (acos_reduced v <=? Math_PI) eqn:H1; done.
Qed.

Lemma mul_1_r v : v * 1 = v.
Proof.
  apply Prim2SF_inj. rewrite mul_spec.
  change (Prim2SF 1) with (S754_finite false 4503599627370496 (-52)).
  pose proof (Prim2SF_valid v) as Hv.
  destruct (Prim2SF v) as [s|s| |s m e]; unfold SF64mul; cbn [SFmul SFopp];
    rewrite ?xorb_false_r; try done.
  by apply round_exact_shifted.
Qed.

Lemma mul_opp_1_r v : v * -1 = - v.
Proof.
  apply Prim2SF_inj. rewrite mul_spec, opp_spec.
  change (Prim2SF (-1)) with (S754_finite true 4503599627370496 (-52)).
  pose proof (Prim2SF_valid v) as Hv.
  destruct (Prim2SF v) as [s|s| |s m e]; unfold SF64mul; cbn [SFmul SFopp];
    rewrite ?xorb_true_r; try done.
  by apply round_exact_shifted.
Qed.

(** Signs *)

Lemma binary_round_aux_nonneg m e l :
  (0 <= m)%Z -> nonneg_or_nan (binary_round_aux prec emax false m e l) = true.
Proof.
  intros Hm.
  by destruct (binary_round_aux_shape false m e l Hm) as [->|[(?&?&->)| ->]].
Qed.

Lemma sqrt_nonneg_or_nan v : nonneg_or_nan (Prim2SF (sqrt v)) = true.
Proof.
  rewrite sqrt_spec. unfold SF64sqrt, SFsqrt.
  destruct (Prim2SF v) as [s|[]| |[] m e]; try done.
  destruct (SFsqrt_core_binary prec emax (Zpos m) e) as [[mz ez] lz] eqn:Hcore.
  apply binary_round_aux_nonneg.
  unfold SFsqrt_core_binary in Hcore.
  destruct (Z.sqrtrem _) as [q r] eqn:Hq. injection Hcore as <- _ _.
  pose proof (Z.sqrtrem_sqrt (match
    (e - 2 * Z.min (fexp prec emax (Z.div2 (Zdigits2 (Zpos m) + e + 1))) (Z.div2 e))%Z
    with Zpos _ => Z.shiftl (Zpos m) (e - 2 * Z.min (fexp prec emax
      (Z.div2 (Zdigits2 (Zpos m) + e + 1))) (Z.div2 e)) | Z0 => Zpos m
    | Zneg _ => 0%Z end)) as Hs.
  rewrite Hq in Hs. simpl in Hs. subst q. apply Z.sqrt_nonneg.
Qed.

Lemma div_2_nonneg_or_nan v :
  nonneg_or_nan (Prim2SF v) = true -> nonneg_or_nan (Prim2SF (v / 2)) = true.
Proof.
  rewrite div_spec.
  change (Prim2SF 2) with (S754_finite false 4503599627370496 (-51)).
  unfold SF64div, SFdiv.
  destruct (Prim2SF v) as [s|[]| |[] m e]; try done.
  intros _.
  destruct (SFdiv_core_binary prec emax (Zpos m) e 4503599627370496 (-51))
    as [[mz ez] lz] eqn:Hcore.
  apply binary_round_aux_nonneg.
  unfold SFdiv_core_binary in Hcore.
  destruct (Z.div_eucl _ 4503599627370496) as [q r] eqn:Hq.
  injection Hcore as <- _ _.
  match type of Hq with Z.div_eucl ?a ?b = _ =>
    pose proof (Z.div_eucl_eq a b ltac:(lia)) as Heq;
    pose proof (Z.mod_pos_bound a b ltac:(lia)) as Hmod;
    assert (Ha : (0 <= a)%Z)
  end.
  { destruct (e - -51 - _)%Z; try lia. apply Z.shiftl_nonneg. lia. }
  unfold Z.modulo in Hmod. rewrite Hq in Heq, Hmod. lia.
Qed.

Lemma mul_nonneg_or_nan a b :
  nonneg_or_nan (Prim2SF a) = true -> nonneg_or_nan (Prim2SF b) = true ->
  nonneg_or_nan (Prim2SF (a * b)) = true.
Proof.
  rewrite mul_spec. unfold SF64mul, SFmul.
  destruct (Prim2SF a) as [sa|[]| |[] ma ea], (Prim2SF b) as [sb|[]| |[] mb eb];
    try done.
  intros _ _. by apply binary_round_aux_nonneg.
Qed.

Lemma leb_0_nonneg_or_nan v : (0 <=? v) = true -> nonneg_or_nan (Prim2SF v) = true.
Proof.
  rewrite FloatAxioms.leb_spec. change (Prim2SF 0) with (S754_zero false).
  by destruct (Prim2SF v) as [s|[]| |[] m e].
Qed.

Lemma nonneg_or_nan_never_negative v :
  nonneg_or_nan (Prim2SF v) = true ->
  (v <? 0) = false /\ (is_nan v = false -> (0 <=? v) = true).
Proof.
  intros Hv. rewrite FloatAxioms.ltb_spec, FloatAxioms.leb_spec.
  change (Prim2SF 0) with (S754_zero false). split.
  - by destruct (Prim2SF v) as [s|[]| |[] m e].
  - intros Hnan. destruct (Prim2SF v) as [s|[]| |[] m e] eqn:HP; try done.
    apply is_nan_Prim2SF in HP. congruence.
Qed.

(** Order *)

Lemma leb_not_nan a b : (a <=? b) = true -> is_nan a = false /\ is_nan b = false.
Proof.
  intros H. split.
  - destruct (is_nan a) eqn:Ha; [|done]. by rewrite (is_nan_not_leb_l a b Ha) in H.
  - destruct (is_nan b) eqn:Hb; [|done]. by rewrite (is_nan_not_leb_r a b Hb) in H.
Qed.

Lemma ltb_leb a b : (a <? b) = true -> (a <=? b) = true.
Proof.
  rewrite FloatAxioms.ltb_spec, FloatAxioms.leb_spec. unfold SFltb, SFleb.
  by destruct (SFcompare _ _) as [[]|].
Qed.

Lemma not_ltb_leb a b :
  is_nan a = false -> is_nan b = false -> (b <? a) = false -> (a <=? b) = true.
Proof.
  intros Ha Hb. rewrite FloatAxioms.ltb_spec, FloatAxioms.leb_spec.
  unfold SFltb, SFleb.
  rewrite (SFcompare_antisym (Prim2SF b) (Prim2SF a)).
  destruct (SFcompare (Prim2SF b) (Prim2SF a)) as [[]|] eqn:Hc; try done.
  exfalso. destruct (Prim2SF a) as [sa|sa| |sa ma ea] eqn:HPa;
    [| |apply is_nan_Prim2SF in HPa; congruence|];
    (destruct (Prim2SF b) as [sb|sb| |sb mb eb] eqn:HPb;
      [| |apply is_nan_Prim2SF in HPb; congruence|]); done.
Qed.

Lemma leb_1_not_ltb_eq v : (v <=? 1) = true -> (v <? 1) = false -> v = 1.
Proof.
  rewrite FloatAxioms.ltb_spec, FloatAxioms.leb_spec. unfold SFltb, SFleb.
  change (Prim2SF 1) with (S754_finite false 4503599627370496 (-52)).
  intros Hle Hlt. apply Prim2SF_inj.
  change (Prim2SF 1) with (S754_finite false 4503599627370496 (-52)).
  destruct (SFcompare _ _) as [[]|] eqn:Hc; try done.
  destruct (Prim2SF v) as [s|[]| |[] m e]; try done.
  by apply SFcompare_Eq_inv in Hc as [-> ->].
Qed.

Lemma is_nan_false_Prim2SF v : is_nan v = false -> Prim2SF v <> S754_nan.
Proof. intros H Hn. apply is_nan_Prim2SF in Hn. congruence. Qed.

Lemma leb_ord a b :
  is_nan a = false -> is_nan b = false -> (a <=? b) = (ord a <=? ord b)%Z.
Proof.
  intros Ha%is_nan_false_Prim2SF Hb%is_nan_false_Prim2SF.
  rewrite FloatAxioms.leb_spec. unfold SFleb, ord.
  rewrite SFcompare_SFord by (done || apply Prim2SF_valid).
  rewrite Z.leb_compare. by destruct (_ ?= _)%Z.
Qed.

Lemma ltb_ord a b :
  is_nan a = false -> is_nan b = false -> (a <? b) = (ord a <? ord b)%Z.
Proof.
  intros Ha%is_nan_false_Prim2SF Hb%is_nan_false_Prim2SF.
  rewrite FloatAxioms.ltb_spec. unfold SFltb, ord.
  rewrite SFcompare_SFord by (done || apply Prim2SF_valid).
  rewrite Z.ltb_compare. by destruct (_ ?= _)%Z.
Qed.

Lemma ltb_not_nan a b : (a <? b) = true -> is_nan a = false /\ is_nan b = false.
Proof. intros H. by apply leb_not_nan, ltb_leb. Qed.

Lemma leb_le a b : (a <=? b) = true -> (ord a <= ord b)%Z.
Proof.
  intros H. destruct (leb_not_nan _ _ H) as [Ha Hb].
  rewrite (leb_ord _ _ Ha Hb) in H. by apply Z.leb_le.
Qed.

Lemma ltb_lt a b : (a <? b) = true -> (ord a < ord b)%Z.
Proof.
  intros H. destruct (ltb_not_nan _ _ H) as [Ha Hb].
  rewrite (ltb_ord _ _ Ha Hb) in H. by apply Z.ltb_lt.
Qed.

Lemma ltb_false_ge a b :
  is_nan a = false -> is_nan b = false -> (a <? b) = false -> (ord b <= ord a)%Z.
Proof.
  intros Ha Hb H. rewrite (ltb_ord _ _ Ha Hb) in H. by apply Z.ltb_ge.
Qed.

Lemma le_leb a b :
  is_nan a = false -> is_nan b = false -> (ord a <= ord b)%Z -> (a <=? b) = true.
Proof. intros Ha Hb H. rewrite (leb_ord _ _ Ha Hb). by apply Z.leb_le. Qed.

Lemma ord_opp a : ord (- a) = (- ord a)%Z.
Proof.
  unfold ord. rewrite opp_spec.
  destruct (Prim2SF a) as [s|[]| |[] m e]; simpl; lia.
Qed.

Lemma is_nan_opp a : is_nan (- a) = is_nan a.
Proof.
  destruct (is_nan a) eqn:Ha.
  - apply is_nan_Prim2SF. apply is_nan_Prim2SF in Ha. by rewrite opp_spec, Ha.
  - destruct (is_nan (- a)) eqn:Hn; [|done].
    apply is_nan_Prim2SF in Hn. rewrite opp_spec in Hn.
    apply is_nan_false_Prim2SF in Ha. by destruct (Prim2SF a).
Qed.

Lemma leb_opp a b : (a <=? b) = true -> (- b <=? - a) = true.
Proof.
  intros H. destruct (leb_not_nan _ _ H) as [Ha Hb]. apply leb_le in H.
  apply le_leb; rewrite ?is_nan_opp, ?ord_opp; try done. lia.
Qed.

Lemma leb_trans a b c : (a <=? b) = true -> (b <=? c) = true -> (a <=? c) = true.
Proof.
  intros H1 H2. destruct (leb_not_nan _ _ H1) as [Ha _].
  destruct (leb_not_nan _ _ H2) as [_ Hc].
  apply leb_le in H1, H2. apply le_leb; try done. lia.
Qed.

(** [Math.min(1, s)] *)
Lemma Math_min_1 s :
  Math_min [1; s] = if is_nan s then nan else if s <? 1 then s else 1.
Proof.
  unfold Math_min. cbn [existsb foldl].
  change (is_nan 1) with false. rewrite orb_false_r. cbn [orb].
  destruct (is_nan s); [done|].
  change (is_neg_zero 1) with false. change (is_pos_zero 1) with false.
  change (1 <? infinity) with true. cbn [andb]. by rewrite andb_false_r.
Qed.

Lemma Math_min_1_above s : (1 <? s) = true -> Math_min [1; s] = 1.
Proof.
  intros H. rewrite Math_min_1.
  destruct (leb_not_nan _ _ (ltb_leb _ _ H)) as [_ ->].
  destruct (s <? 1) eqn:Hs; [|done].
  apply ltb_leb in Hs. by rewrite (ltb_not_leb _ _ H) in Hs.
Qed.

Lemma Math_min_1_monotone s1 s2 :
  (s1 <=? s2) = true -> (s2 <=? 1) = true ->
  (Math_min [1; s1] <=? Math_min [1; s2]) = true.
Proof.
  intros H12 H2. rewrite !Math_min_1.
  destruct (leb_not_nan _ _ H12) as [Hn1 Hn2]. rewrite Hn1, Hn2.
  destruct (s1 <? 1) eqn:H1lt, (s2 <? 1) eqn:H2lt; try done.
  - by apply ltb_leb.
  - exfalso. apply leb_le in H12. apply ltb_lt in H2lt.
    apply ltb_false_ge in H1lt; try done. lia.
Qed.

(** The angle *)

Lemma Math_sign_zero v : (v =? 0) = true -> Math_sign v = v.
Proof. intros H. unfold Math_sign. rewrite H. by destruct (is_nan v). Qed.

Lemma Math_sign_cases v :
  is_nan v = false ->
  ((v =? 0) = true /\ Math_sign v = v) \/ Math_sign v = -1 \/ Math_sign v = 1.
Proof.
  intros Hn. unfold Math_sign. rewrite Hn.
  destruct (v =? 0); [by left|]. destruct (v <? 0); auto.
Qed.

Lemma within_PI_shape a :
  (0 <=? a) = true -> (a <=? Math_PI) = true ->
  (exists s, Prim2SF a = S754_zero s) \/
  (exists m e, Prim2SF a = S754_finite false m e).
Proof.
  rewrite !FloatAxioms.leb_spec. change (Prim2SF 0) with (S754_zero false).
  change (Prim2SF Math_PI) with (S754_finite false 7074237752028440 (-51)).
  destruct (Prim2SF a) as [s|[]| |[] m e]; try done; eauto.
Qed.

Lemma eqb_zero_of_Prim2SF v s : Prim2SF v = S754_zero s -> (v =? 0) = true.
Proof.
  intros H. rewrite FloatAxioms.eqb_spec, H. by destruct s.
Qed.

Lemma zero_within_PI v :
  (v =? 0) = true -> (- Math_PI <=? v) = true /\ (v <=? Math_PI) = true.
Proof.
  intros [s H]%eqb_zero_Prim2SF. rewrite !FloatAxioms.leb_spec, H.
  by destruct s.
Qed.

Lemma mul_opp_zero a z :
  (0 <=? a) = true -> (a <=? Math_PI) = true -> (z =? 0) = true ->
  (a * - z =? 0) = true.
Proof.
  intros H0 H1 [sz Hz]%eqb_zero_Prim2SF.
  assert (exists s, Prim2SF (a * - z) = S754_zero s) as [s Hs].
  { rewrite mul_spec, opp_spec, Hz.
    destruct (within_PI_shape a H0 H1) as [[sa ->]|(m & e & ->)]; simpl; eauto. }
  by apply eqb_zero_of_Prim2SF with s.
Qed.

Lemma quotient_nan_of_dy dx dy :
  is_nan dy = true -> is_nan (dx / Math_sqrt (dx * dx + dy * dy)) = true.
Proof.
  intros H%is_nan_Prim2SF. apply is_nan_Prim2SF. unfold Math_sqrt.
  rewrite div_spec, sqrt_spec, add_spec, !mul_spec, H.
  assert (SF64mul S754_nan S754_nan = S754_nan) as -> by done.
  assert (forall f, SF64add f S754_nan = S754_nan) as -> by (by intros []).
  assert (SF64sqrt S754_nan = S754_nan) as -> by done.
  by destruct (Prim2SF dx).
Qed.

Section Angle.

Variable acos : float -> float.
Hypothesis acos_ok : acos_conforms acos.

Lemma angle_for_level dx dy dxy :
  (dy =? 0) = true -> (-1 <=? dx / dxy) = true -> (dx / dxy <=? 1) = true ->
  (angle_for acos dx dy dxy =? 0) = true.
Proof using acos_ok.
  intros Hdy Hlo Hhi. unfold angle_for. rewrite (Math_sign_zero dy Hdy).
  destruct (acos_inside acos acos_ok _ Hlo Hhi) as [H0 H1].
  by apply mul_opp_zero.
Qed.

Lemma angle_for_within_PI dx dy dxy :
  is_nan dy = false -> (-1 <=? dx / dxy) = true -> (dx / dxy <=? 1) = true ->
  (- Math_PI <=? angle_for acos dx dy dxy) = true /\
  (angle_for acos dx dy dxy <=? Math_PI) = true.
Proof using acos_ok.
  intros Hdy Hlo Hhi.
  destruct (acos_inside acos acos_ok _ Hlo Hhi) as [H0 H1].
  destruct (Math_sign_cases dy Hdy) as [[Hz _]|[Hs|Hs]].
  - apply zero_within_PI. by apply angle_for_level.
  - unfold angle_for. rewrite Hs. change (- -1) with 1. rewrite mul_1_r.
    split; [|done]. apply leb_trans with 0; [done|done].
  - unfold angle_for. rewrite Hs, mul_opp_1_r. split.
    + by apply leb_opp.
    + apply leb_trans with (-0); [by apply leb_opp|done].
Qed.

End Angle.

(** Multiplying by a non-negative number never reverses an order. *)
Lemma mul_monotone c a b :
  (0 <=? c) = true -> (a <=? b) = true -> (c * b <? c * a) = false.
Proof.
  rewrite !FloatAxioms.leb_spec, FloatAxioms.ltb_spec, !mul_spec.
  apply SFmul_monotone; apply Prim2SF_valid.
Qed.

End Binary64.

(** *** The calibration *)

Section Calibration.

Variable Math_acos : float -> float.
Hypothesis Math_acos_conforms : acos_conforms Math_acos.

Local Open Scope float_scope.

Lemma updateLayer_calibrated this v0 v3 :
  reference this = Some (v0, v3) ->
  dataChanged (state this) || viewportChanged (state this) = true ->
  exists built,
    same_config this built /\
    updateLayer Math_acos this =
    Normal (publish
      (set_state built
         (set_radius
            (Some (screen_dxy this v0 v3 / 2 * Math_min [1; this_radius this]))
            (set_angle
               (Some (Math_acos (screen_dx this v0 v3 / screen_dxy this v0 v3)
                      * - Math_sign (screen_dy this v0 v3)))
               (state built))))).
Proof.
  intros Href Hflag. rewrite updateLayer_unfold.
  destruct (dataChanged (state this)) eqn:Hdc.
  - assert (exists d, data (props this) = Some d) as [d Hd].
    { unfold reference in Href. destruct (data (props this)); [eauto|done]. }
    exists (rebuilt this d). split; [by repeat split|].
    rewrite (allocate_and_fill_rebuilt this d Hd). cbn [andThen].
    rewrite orb_true_r.
    by rewrite (_calculateRadiusAndAngle_reference _ (rebuilt this d) v0 v3 Href).
  - simpl in Hflag. rewrite Hflag. exists this. split; [by repeat split|].
    cbn [andThen orb].
    by rewrite (_calculateRadiusAndAngle_reference _ this v0 v3 Href).
Qed.

Lemma publish_calibration t :
  radius (state (publish t)) = radius (state t) /\
  angle (state (publish t)) = angle (state t) /\
  uniforms (state (publish t)) !! "radius" = Some (radius (state t)) /\
  uniforms (state (publish t)) !! "angle" = Some (angle (state t)).
Proof.
  destruct (publish_published t) as (Hr & Ha & _).
  assert (H : radius (state (publish t)) = radius (state t) /\
              angle (state (publish t)) = angle (state t)).
  { unfold publish, updateAttributes. by destruct (negb _). }
  destruct H as [Hr' Ha']. by rewrite <- Hr', <- Ha'.
Qed.

Lemma updateLayer_calibration this v0 v3 :
  reference this = Some (v0, v3) ->
  dataChanged (state this) || viewportChanged (state this) = true ->
  exists this',
    updateLayer Math_acos this = Normal this' /\
    radius (state this') =
      Some (radius_for (screen_dxy this v0 v3) (this_radius this)) /\
    angle (state this') =
      Some (angle_for Math_acos (screen_dx this v0 v3) (screen_dy this v0 v3)
              (screen_dxy this v0 v3)) /\
    uniforms (state this') !! "radius" = Some (radius (state this')) /\
    uniforms (state this') !! "angle" = Some (angle (state this')).
Proof.
  intros Href Hflag.
  destruct (updateLayer_calibrated this v0 v3 Href Hflag) as (built & _ & ->).
  eexists. split; [reflexivity|].
  match goal with |- context [publish ?t] =>
    destruct (publish_calibration t) as (Hr & Ha & Hur & Hua) end.
  rewrite Hr, Ha, Hur, Hua. by repeat split.
Qed.

(** C1, the code at a degenerate projection.  When the two projected
    reference points coincide ([dxy] is zero), the quotient [dx / dxy] is
    NaN or infinite, [Math.acos] of it is NaN, and the update pass stores
    and publishes NaN as the angle: nothing clamps it. *)
Theorem degenerate_projection_publishes_NaN this v0 v3 :
  reference this = Some (v0, v3) ->
  dataChanged (state this) || viewportChanged (state this) = true ->
  (screen_dxy this v0 v3 =? 0) = true ->
  exists this',
    updateLayer Math_acos this = Normal this' /\
    angle (state this') = Some nan /\
    uniforms (state this') !! "angle" = Some (Some nan).
Proof using Math_acos_conforms.
  intros Href Hflag Hzero.
  destruct (updateLayer_calibration this v0 v3 Href Hflag)
    as (this' & Hup & _ & Ha & _ & Hua).
  exists this'. split; [done|].
  assert (Hq : angle_for Math_acos (screen_dx this v0 v3) (screen_dy this v0 v3)
                 (screen_dxy this v0 v3) = nan).
  { unfold angle_for.
    rewrite (acos_outside _ Math_acos_conforms); [apply mul_nan_l|].
    destruct (div_zero (screen_dx this v0 v3) _ Hzero) as [->|[->| ->]];
      reflexivity. }
  rewrite Hua, Ha, Hq. done.
Qed.

(** C10, as the code has it.  When the projected vertical displacement
    [dy] is zero, of either sign, and the quotient [dx / dxy] is a number
    between -1 and 1, the [Math.sign(dy)] factor is that zero and the angle
    that is computed and published is zero, of either sign, whatever the
    sign of [dx]. *)
Theorem level_reference_zero_angle this v0 v3 :
  reference this = Some (v0, v3) ->
  dataChanged (state this) || viewportChanged (state this) = true ->
  (screen_dy this v0 v3 =? 0) = true ->
  (-1 <=? screen_dx this v0 v3 / screen_dxy this v0 v3) = true ->
  (screen_dx this v0 v3 / screen_dxy this v0 v3 <=? 1) = true ->
  exists this' a,
    updateLayer Math_acos this = Normal this' /\
    angle (state this') = Some a /\
    (a =? 0) = true /\
    Math_sign (screen_dy this v0 v3) = screen_dy this v0 v3 /\
    uniforms (state this') !! "angle" = Some (Some a).
Proof using Math_acos_conforms.
  intros Href Hflag Hdy Hlo Hhi.
  destruct (updateLayer_calibration this v0 v3 Href Hflag)
    as (this' & Hup & _ & Ha & _ & Hua).
  exists this'. eexists. split; [done|]. split; [exact Ha|].
  split; [by apply angle_for_level|]. split; [by apply Math_sign_zero|].
  by rewrite Hua, Ha.
Qed.

Lemma _calculateRadiusAndAngle_Normal_inv built t :
  _calculateRadiusAndAngle Math_acos built = Normal t ->
  (t = built /\ reference built = None) \/
  exists v0 v3,
    reference built = Some (v0, v3) /\
    radius (state t) = Some (radius_for (screen_dxy built v0 v3) (this_radius built)) /\
    angle (state t) =
      Some (angle_for Math_acos (screen_dx built v0 v3) (screen_dy built v0 v3)
              (screen_dxy built v0 v3)).
Proof.
  destruct (reference built) as [[v0 v3]|] eqn:Href.
  - rewrite (_calculateRadiusAndAngle_reference _ built v0 v3 Href).
    intros [= <-]. right. exists v0, v3. by repeat split.
  - unfold reference in Href. unfold _calculateRadiusAndAngle.
    destruct (data (props built)) as [[|h rest]|]; try (intros [= <-]; by left).
    destruct (vertices h !! 0%nat); [|done].
    destruct (vertices h !! 3%nat); done.
Qed.

Lemma calibrated_in_bounds this v0 v3 :
  (0 <=? this_radius this) = true ->
  (-1 <=? screen_dx this v0 v3 / screen_dxy this v0 v3) = true ->
  (screen_dx this v0 v3 / screen_dxy this v0 v3 <=? 1) = true ->
  let r := radius_for (screen_dxy this v0 v3) (this_radius this) in
  let a := angle_for Math_acos (screen_dx this v0 v3) (screen_dy this v0 v3)
             (screen_dxy this v0 v3) in
  ((r <? 0) = false /\ (is_nan r = false -> (0 <=? r) = true)) /\
  (- Math_PI <=? a) = true /\ (a <=? Math_PI) = true.
Proof using Math_acos_conforms.
  intros Hs Hlo Hhi. cbv zeta. split.
  - apply nonneg_or_nan_never_negative. unfold radius_for.
    apply mul_nonneg_or_nan.
    + apply div_2_nonneg_or_nan, sqrt_nonneg_or_nan.
    + rewrite Math_min_1. destruct (leb_not_nan _ _ Hs) as [_ ->].
      destruct (_ <? 1); [by apply leb_0_nonneg_or_nan|done].
  - apply angle_for_within_PI; try done.
    destruct (is_nan (screen_dy this v0 v3)) eqn:Hn; [|done].
    pose proof (quotient_nan_of_dy (screen_dx this v0 v3) _ Hn) as Hq.
    change (is_nan (screen_dx this v0 v3 / screen_dxy this v0 v3) = true) in Hq.
    by rewrite (is_nan_not_leb_l _ 1 Hq) in Hhi.
Qed.

(** C9, as the code has it.  The bounds are an invariant of the update
    pass under two conditions on a pass that calibrates: the user's scale
    [this.radius] is at least zero, and the quotient [dx / dxy] is a number
    between -1 and 1.  Then the radius is never negative (it is at least
    zero whenever it is a number), the angle lies between [-Math.PI] and
    [Math.PI], and the published uniforms are these values.  A pass that
    does not calibrate keeps the radius and angle it found. *)
Theorem updateLayer_in_bounds this this' :
  in_bounds this ->
  (forall v0 v3, reference this = Some (v0, v3) ->
     (0 <=? this_radius this) = true /\
     (-1 <=? screen_dx this v0 v3 / screen_dxy this v0 v3) = true /\
     (screen_dx this v0 v3 / screen_dxy this v0 v3 <=? 1) = true) ->
  updateLayer Math_acos this = Normal this' ->
  in_bounds this' /\
  uniforms (state this') !! "radius" = Some (radius (state this')) /\
  uniforms (state this') !! "angle" = Some (angle (state this')).
Proof using Math_acos_conforms.
  intros Hin Hreg. rewrite updateLayer_unfold. intros H.
  apply andThen_Normal_inv in H as (built & Hbuilt & H).
  apply andThen_Normal_inv in H as (calibrated & Hcal & [= <-]).
  destruct (publish_calibration calibrated) as (Hr & Ha & Hur & Hua).
  rewrite Hur, Hua, <- Hr, <- Ha. split; [|done].
  unfold in_bounds. rewrite Hr, Ha.
  assert (Hframe : radius (state built) = radius (state this) /\
                   angle (state built) = angle (state this) /\
                   (forall v0 v3, reference built = Some (v0, v3) ->
                      reference this = Some (v0, v3) /\
                      screen_dx built v0 v3 = screen_dx this v0 v3 /\
                      screen_dy built v0 v3 = screen_dy this v0 v3 /\
                      screen_dxy built v0 v3 = screen_dxy this v0 v3 /\
                      this_radius built = this_radius this)).
  { destruct (dataChanged (state this)); [|by injection Hbuilt as <-].
    unfold allocate_and_fill in Hbuilt.
    destruct (data (props this)) as [d|] eqn:Hd.
    - pose proof (allocate_and_fill_rebuilt this d Hd) as Hre.
      unfold allocate_and_fill in Hre. rewrite Hre in Hbuilt.
      injection Hbuilt as <-. by repeat split.
    - rewrite _allocateGLBuffers_Normal in Hbuilt. cbv zeta in Hbuilt.
      cbn [andThen] in Hbuilt. unfold _calculatePositions at 1 in Hbuilt.
      unfold data_forEach in Hbuilt. cbn [props set_state] in Hbuilt.
      rewrite Hd in Hbuilt. done. }
  destruct Hframe as (Hfr & Hfa & Hfref).
  assert (Hcases : calibrated = built \/
    exists v0 v3, reference built = Some (v0, v3) /\
      radius (state calibrated) =
        Some (radius_for (screen_dxy built v0 v3) (this_radius built)) /\
      angle (state calibrated) =
        Some (angle_for Math_acos (screen_dx built v0 v3) (screen_dy built v0 v3)
                (screen_dxy built v0 v3))).
  { destruct (viewportChanged (state this) || dataChanged (state this)).
    - apply _calculateRadiusAndAngle_Normal_inv in Hcal as [[-> _]|Hc]; auto.
    - injection Hcal as <-. by left. }
  destruct Hcases as [->|(v0 & v3 & Href & Hcr & Hca)].
  - rewrite Hfr, Hfa. exact Hin.
  - destruct (Hfref v0 v3 Href) as (Href' & Hdx & Hdy & Hdxy & Hsc).
    destruct (Hreg v0 v3 Href') as (Hs & Hlo & Hhi).
    rewrite Hcr, Hca, Hdx, Hdy, Hdxy, Hsc.
    destruct (calibrated_in_bounds this v0 v3 Hs Hlo Hhi) as (HR & HA).
    split; [by intros r [= <-]|by intros a [= <-]].
Qed.

(** C4. The calibration stores and publishes
    [(dxy / 2) * Math.min(1, this.radius)].  As a function of the scale,
    for scales up to 1 it never decreases: a larger scale never gives a
    smaller radius, and gives one at least as large whenever both are
    numbers.  For every scale above 1 it is exactly [dxy / 2]. *)
Theorem radius_clamped this v0 v3 :
  reference this = Some (v0, v3) ->
  dataChanged (state this) || viewportChanged (state this) = true ->
  let dxy := screen_dxy this v0 v3 in
  (exists this',
     updateLayer Math_acos this = Normal this' /\
     radius (state this') = Some (dxy / 2 * Math_min [1; this_radius this]) /\
     uniforms (state this') !! "radius" =
       Some (Some (dxy / 2 * Math_min [1; this_radius this]))) /\
  (forall s, radius_for dxy s = dxy / 2 * Math_min [1; s]) /\
  (forall s1 s2,
     (s1 <=? s2) = true -> (s2 <=? 1) = true ->
     (radius_for dxy s2 <? radius_for dxy s1) = false /\
     (is_nan (radius_for dxy s1) = false ->
      is_nan (radius_for dxy s2) = false ->
      (radius_for dxy s1 <=? radius_for dxy s2) = true)) /\
  (forall s, (1 <? s) = true -> radius_for dxy s = dxy / 2).
Proof.
  intros Href Hflag dxy. split; [|split; [done|split]].
  - destruct (updateLayer_calibration this v0 v3 Href Hflag)
      as (this' & Hup & Hr & _ & Hur & _).
    exists this'. split; [done|]. split; [exact Hr|]. by rewrite Hur, Hr.
  - intros s1 s2 H12 H2.
    assert (Hlt : (radius_for dxy s2 <? radius_for dxy s1) = false).
    { unfold radius_for.
      pose proof (div_2_nonneg_or_nan dxy (sqrt_nonneg_or_nan _)) as Hc.
      destruct (is_nan (dxy / 2)) eqn:Hn.
      - apply is_nan_Prim2SF, eq_nan in Hn. rewrite Hn, !mul_nan_l.
        reflexivity.
      - apply mul_monotone.
        + by apply nonneg_or_nan_never_negative.
        + by apply Math_min_1_monotone. }
    split; [done|]. intros Hn1 Hn2. by apply not_ltb_leb.
  - intros s Hs. unfold radius_for.
    by rewrite (Math_min_1_above s Hs), mul_1_r.
Qed.

End Calibration.

(** *** Failures of the update pass *)

Section Failures.

Variable Math_acos : float -> float.

Lemma allocate_and_fill_missing this :
  data (props this) = None ->
  allocate_and_fill this = Throw TypeError (allocated this).
Proof.
  intros Hd. unfold allocate_and_fill. rewrite _allocateGLBuffers_Normal.
  cbv zeta. cbn [andThen]. unfold _calculatePositions, data_forEach.
  cbn [props set_state]. rewrite Hd. reflexivity.
Qed.

Lemma updateLayer_cases this :
  updateLayer Math_acos this =
  if dataChanged (state this) then
    match data (props this) with
    | None => Throw TypeError (allocated this)
    | Some d =>
      _calculateRadiusAndAngle Math_acos (rebuilt this d) >>
      fun calibrated => Normal (publish calibrated)
    end
  else if viewportChanged (state this) then
    _calculateRadiusAndAngle Math_acos this >>
    fun calibrated => Normal (publish calibrated)
  else Normal (publish this).
Proof.
  rewrite updateLayer_unfold. destruct (dataChanged (state this)).
  - rewrite orb_true_r. destruct (data (props this)) as [d|] eqn:Hd.
    + by rewrite (allocate_and_fill_rebuilt this d Hd).
    + by rewrite (allocate_and_fill_missing this Hd).
  - rewrite orb_false_r. cbn [andThen]. by destruct (viewportChanged (state this)).
Qed.


(** The calibration writes the radius and the angle and nothing else, and
    writes nothing at all when it throws. *)
Lemma _calculateRadiusAndAngle_frame built :
  let t := completed (_calculateRadiusAndAngle Math_acos built) in
  uniforms (state t) = uniforms (state built) /\
  attributes (state t) = attributes (state built) /\
  positions (state t) = positions (state built) /\
  colors (state t) = colors (state built) /\
  pickingColors (state t) = pickingColors (state built) /\
  dataChanged (state t) = dataChanged (state built) /\
  viewportChanged (state t) = viewportChanged (state built) /\
  isPickable t = isPickable built /\
  forall e, _calculateRadiusAndAngle Math_acos built = Throw e t -> t = built.
Proof.
  unfold _calculateRadiusAndAngle.
  destruct (data (props built)) as [[|h rest]|]; try done.
  destruct (vertices h !! 0%nat); [|done].
  destruct (vertices h !! 3%nat); done.
Qed.


(** X2. Missing data.  When [props.data] is undefined, a data change
    allocates the zeroed buffers and then throws a [TypeError] in the first
    fill loop: nothing is filled or published and the flags stay set.  A pass
    without a data change does not look at the data: it completes, and
    republishes the radius and the angle it found. *)
Theorem updateLayer_missing_data this :
  data (props this) = None ->
  (dataChanged (state this) = true ->
   updateLayer Math_acos this = Throw TypeError (allocated this) /\
   positions (state (allocated this)) =
     Some (replicate (_numInstances this * 3) 0%float) /\
   colors (state (allocated this)) =
     Some (replicate (_numInstances this * 3) 0%float) /\
   dataChanged (state (allocated this)) = true /\
   uniforms (state (allocated this)) = uniforms (state this) /\
   attributes (state (allocated this)) = attributes (state this)) /\
  (dataChanged (state this) = false ->
   updateLayer Math_acos this = Normal (publish this) /\
   radius (state (publish this)) = radius (state this) /\
   angle (state (publish this)) = angle (state this) /\
   uniforms (state (publish this)) !! "radius" = Some (radius (state this)) /\
   uniforms (state (publish this)) !! "angle" = Some (angle (state this))).
Proof.
  intros Hd. rewrite updateLayer_cases, Hd. split.
  - intros Hdc. rewrite Hdc. by repeat split.
  - intros Hdc. rewrite Hdc.
    assert (Hcal : _calculateRadiusAndAngle Math_acos this = Normal this).
    { unfold _calculateRadiusAndAngle. by rewrite Hd. }
    rewrite Hcal. cbn [andThen].
    split; [by destruct (viewportChanged (state this))|].
    apply publish_calibration.
Qed.

End Failures.

(** *** Buffers and dataset of different sizes *)

Lemma fill3_lookup_beyond {A : Type} (f : nat -> A -> float * float * float)
    i0 d a j :
  (i0 + length d) * 3 <= j -> fill3 f i0 d a !! j = a !! j.
Proof.
  revert i0 a. induction d as [|item rest IH]; intros i0 a Hj; simpl in *; [done|].
  destruct (f i0 item) as [[u v] w]. rewrite IH by lia. unfold store.
  rewrite !list_lookup_insert_ne by lia. done.
Qed.

(** X3. The buffers are sized by [_numInstances], not by the dataset.
    Whatever the length of [props.data], both buffers have exactly
    [_numInstances * 3] elements: an item within the allocation is written
    to its three slots, an item beyond it is dropped without disturbing the
    others (a typed array never grows), and the slots past the last
    item stay zero. *)
Theorem fill_within_allocation this d :
  data (props this) = Some d ->
  exists built p c,
    allocate_and_fill this = Normal built /\
    positions (state built) = Some p /\ colors (state built) = Some c /\
    length p = _numInstances this * 3 /\ length c = _numInstances this * 3 /\
    (forall i h, d !! i = Some h -> i < _numInstances this ->
       p !! (i * 3 + 0) = Some (fround (x (centroid h))) /\
       p !! (i * 3 + 1) = Some (fround (y (centroid h))) /\
       p !! (i * 3 + 2) = Some (fround (elevation this)) /\
       c !! (i * 3 + 0) = Some (fround (ToNumber (color h !! 0%nat))) /\
       c !! (i * 3 + 1) = Some (fround (ToNumber (color h !! 1%nat))) /\
       c !! (i * 3 + 2) = Some (fround (ToNumber (color h !! 2%nat)))) /\
    (forall j, length d * 3 <= j -> j < _numInstances this * 3 ->
       p !! j = Some 0%float /\ c !! j = Some 0%float) /\
    (forall j, _numInstances this * 3 <= j -> p !! j = None /\ c !! j = None).
Proof.
  intros Hd. exists (rebuilt this d). do 2 eexists.
  split; [by apply allocate_and_fill_rebuilt|].
  split; [reflexivity|]. split; [reflexivity|].
  split; [by rewrite fill3_length, length_new_Float32Array|].
  split; [by rewrite fill3_length, length_new_Float32Array|].
  split; [|split].
  - intros i h Hi HN.
    assert (Hlen : (0 + i) * 3 + 2 <
                   length (new_Float32Array (_numInstances this * 3))).
    { rewrite length_new_Float32Array. lia. }
    destruct (fill3_lookup (position_of (elevation this)) 0 d _ i h Hi Hlen)
      as (Hp0 & Hp1 & Hp2).
    destruct (fill3_lookup color_of 0 d _ i h Hi Hlen) as (Hc0 & Hc1 & Hc2).
    by repeat split.
  - intros j Hj HN. rewrite !fill3_lookup_beyond by (simpl; lia).
    unfold new_Float32Array. by rewrite lookup_replicate_2.
  - intros j Hj.
    split; apply lookup_ge_None;
      rewrite fill3_length, length_new_Float32Array; lia.
Qed.

(** X4. A colour with fewer than three channels.  Reading the missing
    channel gives [undefined], and the store turns it into NaN: the slot of
    that channel holds NaN, not zero and not the previous value. *)
Theorem missing_channel_stored_as_NaN this d i h k :
  data (props this) = Some d -> d !! i = Some h -> i < _numInstances this ->
  k < 3 -> color h !! k = None ->
  exists built c,
    allocate_and_fill this = Normal built /\
    colors (state built) = Some c /\
    c !! (i * 3 + k) = Some nan.
Proof.
  intros Hd Hi HN Hk Hnone. exists (rebuilt this d). eexists.
  split; [by apply allocate_and_fill_rebuilt|]. split; [reflexivity|].
  assert (Hlen : (0 + i) * 3 + 2 <
                 length (new_Float32Array (_numInstances this * 3))).
  { rewrite length_new_Float32Array. lia. }
  destruct (fill3_lookup color_of 0 d _ i h Hi Hlen) as (Hc0 & Hc1 & Hc2).
  cbn [color_of fst snd Nat.add] in Hc0, Hc1, Hc2.
  destruct k as [|[|[|k]]]; [| | |lia].
  - by rewrite Hc0, Hnone.
  - by rewrite Hc1, Hnone.
  - by rewrite Hc2, Hnone.
Qed.

(** *** What the update pass leaves alone *)

Lemma publish_frame t :
  (forall k, k <> "radius" -> k <> "angle" ->
     uniforms (state (publish t)) !! k = uniforms (state t) !! k) /\
  (forall k, k <> "positions" -> k <> "colors" -> k <> "pickingColors" ->
     attributes (state (publish t)) !! k = attributes (state t) !! k) /\
  (isPickable t = false ->
   attributes (state (publish t)) !! "pickingColors" =
   attributes (state t) !! "pickingColors") /\
  pickingColors (state (publish t)) = pickingColors (state t).
Proof.
  unfold publish, updateAttributes, updateUniforms.
  destruct t as [? ? ? ? [] ? ? ? ?]; simpl; repeat split; try done;
    intros; by rewrite !lookup_insert_ne by done.
Qed.

Section Frame.

Variable Math_acos : float -> float.

(** X5. The update pass owns two uniforms and three attributes.  A pass
    that completes changes no entry of [uniforms] other than [radius] and
    [angle], and no entry of [attributes] other than [positions], [colors]
    and [pickingColors]: what other code stored there is still there. *)
Theorem updateLayer_own_keys this this' :
  updateLayer Math_acos this = Normal this' ->
  (forall k, k <> "radius" -> k <> "angle" ->
     uniforms (state this') !! k = uniforms (state this) !! k) /\
  (forall k, k <> "positions" -> k <> "colors" -> k <> "pickingColors" ->
     attributes (state this') !! k = attributes (state this) !! k).
Proof.
  rewrite updateLayer_cases.
  assert (Hcal : forall built,
    uniforms (state built) = uniforms (state this) ->
    attributes (state built) = attributes (state this) ->
    (_calculateRadiusAndAngle Math_acos built >>
       fun calibrated => Normal (publish calibrated)) = Normal this' ->
    (forall k, k <> "radius" -> k <> "angle" ->
       uniforms (state this') !! k = uniforms (state this) !! k) /\
    (forall k, k <> "positions" -> k <> "colors" -> k <> "pickingColors" ->
       attributes (state this') !! k = attributes (state this) !! k)).
  { intros built Hu Ha H.
    apply andThen_Normal_inv in H as (c & Hc & [= <-]).
    destruct (_calculateRadiusAndAngle_frame Math_acos built) as (Hu' & Ha' & _).
    rewrite Hc in Hu', Ha'. cbn [completed] in Hu', Ha'.
    destruct (publish_frame c) as (Hpu & Hpa & _).
    split; intros k; intros.
    - rewrite Hpu by done. by rewrite Hu', Hu.
    - rewrite Hpa by done. by rewrite Ha', Ha. }
  destruct (dataChanged (state this)).
  - destruct (data (props this)) as [d|]; [|done]. by apply Hcal.
  - destruct (viewportChanged (state this)); [by apply Hcal|].
    intros [= <-]. destruct (publish_frame this) as (Hpu & Hpa & _). by split.
Qed.

(** X6. A layer that is not pickable.  However the update pass ends, it
    has not touched [state.pickingColors] nor the [pickingColors]
    attribute: a picking buffer left from an earlier time is neither
    reallocated, refilled, republished nor removed. *)
Theorem updateLayer_not_pickable this :
  isPickable this = false ->
  pickingColors (state (completed (updateLayer Math_acos this))) =
    pickingColors (state this) /\
  attributes (state (completed (updateLayer Math_acos this))) !! "pickingColors" =
    attributes (state this) !! "pickingColors".
Proof.
  intros Hp. rewrite updateLayer_cases.
  assert (Hcal : forall built,
    isPickable built = false ->
    pickingColors (state built) = pickingColors (state this) ->
    attributes (state built) = attributes (state this) ->
    let t := completed (_calculateRadiusAndAngle Math_acos built >>
                          fun calibrated => Normal (publish calibrated)) in
    pickingColors (state t) = pickingColors (state this) /\
    attributes (state t) !! "pickingColors" =
      attributes (state this) !! "pickingColors").
  { intros built Hpb Hk Ha.
    destruct (_calculateRadiusAndAngle_frame Math_acos built)
      as (_ & Ha' & _ & _ & Hk' & _ & _ & Hp' & _).
    destruct (_calculateRadiusAndAngle Math_acos built) as [c|e c];
      cbn [andThen completed] in *.
    - destruct (publish_frame c) as (_ & _ & Hpa & Hpk).
      rewrite Hpk, Hpa by congruence. by rewrite Hk', Ha', Hk, Ha.
    - by rewrite Hk', Ha', Hk, Ha. }
  assert (Hre : forall d,
    pickingColors (state (rebuilt this d)) = pickingColors (state this)).
  { intros d. unfold rebuilt. cbn. by rewrite Hp. }
  destruct (dataChanged (state this)).
  - destruct (data (props this)) as [d|].
    + by apply Hcal.
    + cbn [completed]. unfold allocated. by rewrite (Hre []).
  - destruct (viewportChanged (state this)); [by apply Hcal|].
    cbn [completed]. destruct (publish_frame this) as (_ & _ & Hpa & Hpk).
    by rewrite Hpk, Hpa.
Qed.

End Frame.

(** *** More on the calibration *)

Section CalibrationFacts.

Local Open Scope float_scope.

Lemma mul_nan_r v : v * nan = nan.
Proof.
  apply Prim2SF_inj. rewrite mul_spec, Prim2SF_nan.
  by destruct (Prim2SF v).
Qed.

Lemma ltb_not_eqb a b : (a <? b) = true -> (a =? b) = false.
Proof.
  rewrite FloatAxioms.ltb_spec, FloatAxioms.eqb_spec. unfold SFltb, SFeqb.
  by destruct (SFcompare _ _) as [[]|].
Qed.

Lemma ltb_flip a b : (a <? b) = true -> (b =? a) = false /\ (b <? a) = false.
Proof.
  rewrite !FloatAxioms.ltb_spec, FloatAxioms.eqb_spec. unfold SFltb, SFeqb.
  rewrite (SFcompare_antisym (Prim2SF a) (Prim2SF b)).
  by destruct (SFcompare (Prim2SF a) (Prim2SF b)) as [[]|].
Qed.

Lemma Math_sign_negative v : (v <? 0) = true -> Math_sign v = -1.
Proof.
  intros H. unfold Math_sign.
  destruct (ltb_not_nan _ _ H) as [-> _]. by rewrite (ltb_not_eqb _ _ H), H.
Qed.

Lemma Math_sign_positive v : (0 <? v) = true -> Math_sign v = 1.
Proof.
  intros H. unfold Math_sign.
  destruct (ltb_not_nan _ _ H) as [_ ->].
  by destruct (ltb_flip _ _ H) as [-> ->].
Qed.

Lemma Math_min_1_at_most_1 s : is_nan s = false -> (Math_min [1; s] <=? 1) = true.
Proof.
  intros Hs. rewrite Math_min_1, Hs.
  destruct (s <? 1) eqn:H; [by apply ltb_leb|reflexivity].
Qed.

Variable Math_acos : float -> float.

(** X7. Which way the angle turns.  When the projected reference pair
    points down ([dy < 0]) the angle is [Math.acos(dx / dxy)] itself, and
    when it points up ([dy > 0]) it is that value negated, bit for bit: the
    [Math.sign] factor is exactly 1 or -1 and the product does not round. *)
Theorem angle_opposes_dy this v0 v3 :
  reference this = Some (v0, v3) ->
  dataChanged (state this) || viewportChanged (state this) = true ->
  exists this' a,
    updateLayer Math_acos this = Normal this' /\
    angle (state this') = Some a /\
    uniforms (state this') !! "angle" = Some (Some a) /\
    ((screen_dy this v0 v3 <? 0) = true ->
     a = Math_acos (screen_dx this v0 v3 / screen_dxy this v0 v3)) /\
    ((0 <? screen_dy this v0 v3) = true ->
     a = - Math_acos (screen_dx this v0 v3 / screen_dxy this v0 v3)).
Proof.
  intros Href Hflag.
  destruct (updateLayer_calibration Math_acos this v0 v3 Href Hflag)
    as (this' & Hup & _ & Ha & _ & Hua).
  exists this'. eexists. split; [exact Hup|]. split; [exact Ha|].
  split; [by rewrite Hua, Ha|]. unfold angle_for. split.
  - intros Hdy. rewrite (Math_sign_negative _ Hdy).
    change (- -1) with 1. apply mul_1_r.
  - intros Hdy. rewrite (Math_sign_positive _ Hdy). apply mul_opp_1_r.
Qed.

(** X8. A radius scale that is not a number.  When [this.radius] is NaN
    (an undefined scale counts as NaN in [Math.min]), the radius that is computed and
    published is NaN, whatever the reference pair. *)
Theorem NaN_scale_NaN_radius this v0 v3 :
  reference this = Some (v0, v3) ->
  dataChanged (state this) || viewportChanged (state this) = true ->
  is_nan (this_radius this) = true ->
  exists this',
    updateLayer Math_acos this = Normal this' /\
    radius (state this') = Some nan /\
    uniforms (state this') !! "radius" = Some (Some nan).
Proof.
  intros Href Hflag Hs.
  destruct (updateLayer_calibration Math_acos this v0 v3 Href Hflag)
    as (this' & Hup & Hr & _ & Hur & _).
  exists this'. split; [exact Hup|].
  assert (Hnan : radius_for (screen_dxy this v0 v3) (this_radius this) = nan).
  { unfold radius_for. rewrite Math_min_1, Hs. apply mul_nan_r. }
  rewrite Hur, Hr, Hnan. by split.
Qed.

(** X9. The radius never exceeds half the pitch.  For every radius scale,
    the radius that is computed and published is never greater than
    [dxy / 2], and is at most [dxy / 2] whenever it is a number: the scale
    can shrink the hexagon but cannot enlarge it. *)
Theorem radius_at_most_half_pitch this v0 v3 :
  reference this = Some (v0, v3) ->
  dataChanged (state this) || viewportChanged (state this) = true ->
  exists this' r,
    updateLayer Math_acos this = Normal this' /\
    radius (state this') = Some r /\
    uniforms (state this') !! "radius" = Some (Some r) /\
    (screen_dxy this v0 v3 / 2 <? r) = false /\
    (is_nan r = false -> (r <=? screen_dxy this v0 v3 / 2) = true).
Proof.
  intros Href Hflag.
  destruct (updateLayer_calibration Math_acos this v0 v3 Href Hflag)
    as (this' & Hup & Hr & _ & Hur & _).
  exists this'. eexists. split; [exact Hup|]. split; [exact Hr|].
  split; [by rewrite Hur, Hr|].
  unfold radius_for. set (c := screen_dxy this v0 v3 / 2).
  set (m := Math_min [1; this_radius this]).
  assert (Hlt : (c <? c * m) = false).
  { destruct (is_nan c) eqn:Hc.
    - apply is_nan_Prim2SF, eq_nan in Hc. by rewrite Hc, mul_nan_l.
    - destruct (is_nan (this_radius this)) eqn:Hs.
      + unfold m. rewrite Math_min_1, Hs, mul_nan_r.
        rewrite FloatAxioms.ltb_spec, Prim2SF_nan. by destruct (Prim2SF c).
      + pose proof (div_2_nonneg_or_nan (screen_dxy this v0 v3)
                      (sqrt_nonneg_or_nan _)) as Hnn.
        apply nonneg_or_nan_never_negative in Hnn as [_ H0].
        rewrite <- (mul_1_r c) at 1.
        apply mul_monotone; [by apply H0|by apply Math_min_1_at_most_1]. }
  split; [exact Hlt|]. intros Hn. apply not_ltb_leb; [exact Hn| |exact Hlt].
  destruct (is_nan c) eqn:Hc; [|done].
  apply is_nan_Prim2SF, eq_nan in Hc. by rewrite Hc, mul_nan_l in Hn.
Qed.

(** X10. The calibration reads the reference pair only.  Two layers that
    agree on [data[0].vertices[0]] and [data[0].vertices[3]], on the two
    projections and on the radius scale get the same radius and angle,
    whatever their other vertices, items, centroids, colours and buffers. *)
Theorem calibration_reads_reference_only a b v0 v3 :
  reference a = Some (v0, v3) -> reference b = Some (v0, v3) ->
  project a = project b -> screenToSpace a = screenToSpace b ->
  this_radius a = this_radius b ->
  dataChanged (state a) || viewportChanged (state a) = true ->
  dataChanged (state b) || viewportChanged (state b) = true ->
  exists a' b',
    updateLayer Math_acos a = Normal a' /\
    updateLayer Math_acos b = Normal b' /\
    radius (state a') = radius (state b') /\
    angle (state a') = angle (state b') /\
    uniforms (state a') !! "radius" = uniforms (state b') !! "radius" /\
    uniforms (state a') !! "angle" = uniforms (state b') !! "angle".
Proof.
  intros Ha Hb Hp Hs Hr Hfa Hfb.
  destruct (updateLayer_calibration Math_acos a v0 v3 Ha Hfa)
    as (a' & Hupa & Hra & Haa & Hura & Huaa).
  destruct (updateLayer_calibration Math_acos b v0 v3 Hb Hfb)
    as (b' & Hupb & Hrb & Hab & Hurb & Huab).
  exists a', b'. split; [exact Hupa|]. split; [exact Hupb|].
  assert (Hdx : screen_dx a v0 v3 = screen_dx b v0 v3).
  { unfold screen_dx, screenCoord. by rewrite Hp, Hs. }
  assert (Hdy : screen_dy a v0 v3 = screen_dy b v0 v3).
  { unfold screen_dy, screenCoord. by rewrite Hp, Hs. }
  assert (Hdxy : screen_dxy a v0 v3 = screen_dxy b v0 v3).
  { unfold screen_dxy. by rewrite Hdx, Hdy. }
  rewrite Hura, Huaa, Hurb, Huab, Hra, Haa, Hrb, Hab, Hdx, Hdy, Hdxy, Hr.
  by repeat split.
Qed.

End CalibrationFacts.

(** *** The order of the reference pair *)

Section Swap.

Lemma binary_normalize_opp m e :
  mirrored (binary_normalize prec emax m e false)
           (binary_normalize prec emax (- m) e false).
Proof.
  destruct m as [|p|p];
    [|change (- Z.pos p)%Z with (Z.neg p)|change (- Z.neg p)%Z with (Z.pos p)];
    cbn [binary_normalize].
  - right. eauto.
  - left. unfold binary_round. destruct (shl_align _ _ _).
    apply binary_round_aux_opp.
  - left. unfold binary_round. destruct (shl_align _ _ _).
    rewrite binary_round_aux_opp.
    by destruct (binary_round_aux prec emax false _ _ _) as [[]|[]| |[] ? ?].
Qed.

Lemma SFsub_mirrored a b :
  mirrored (SFsub prec emax a b) (SFsub prec emax b a).
Proof.
  destruct a as [sa|sa| |sa ma ea], b as [sb|sb| |sb mb eb];
    cbn [SFsub]; try (by left); try (by left; destruct sa);
    try (by left; destruct sb); try (by left; destruct sa, sb);
    try (right; destruct sa, sb; by eauto).
  rewrite (Z.min_comm eb ea).
  match goal with |- mirrored (binary_normalize _ _ ?m _ _) (binary_normalize _ _ ?n _ _) =>
    replace n with (- m)%Z by lia end.
  apply binary_normalize_opp.
Qed.

Lemma SFmul_mirrored a b :
  mirrored a b -> SFmul prec emax b b = SFmul prec emax a a.
Proof.
  intros [->|(s & s' & -> & ->)].
  - destruct a as [[]|[]| |[] m e]; reflexivity.
  - by destruct s, s'.
Qed.

Local Open Scope float_scope.

Lemma sub_swap_square a b : (b - a) * (b - a) = (a - b) * (a - b).
Proof.
  apply Prim2SF_inj. rewrite !mul_spec, !sub_spec.
  apply SFmul_mirrored, SFsub_mirrored.
Qed.

Variable Math_acos : float -> float.

(** X11. The radius does not depend on the order of the reference pair.
    Two layers whose reference vertices are each other's, swapped, and that
    agree on the projections and on the radius scale, get the same radius,
    bit for bit: [dx] and [dy] change sign and their squares do not. *)
Theorem radius_symmetric a b v0 v3 :
  reference a = Some (v0, v3) -> reference b = Some (v3, v0) ->
  project a = project b -> screenToSpace a = screenToSpace b ->
  this_radius a = this_radius b ->
  dataChanged (state a) || viewportChanged (state a) = true ->
  dataChanged (state b) || viewportChanged (state b) = true ->
  exists a' b',
    updateLayer Math_acos a = Normal a' /\
    updateLayer Math_acos b = Normal b' /\
    radius (state a') = radius (state b') /\
    uniforms (state a') !! "radius" = uniforms (state b') !! "radius".
Proof.
  intros Ha Hb Hp Hs Hr Hfa Hfb.
  destruct (updateLayer_calibration Math_acos a v0 v3 Ha Hfa)
    as (a' & Hupa & Hra & _ & Hura & _).
  destruct (updateLayer_calibration Math_acos b v3 v0 Hb Hfb)
    as (b' & Hupb & Hrb & _ & Hurb & _).
  exists a', b'. split; [exact Hupa|]. split; [exact Hupb|].
  assert (Hdxy : screen_dxy b v3 v0 = screen_dxy a v0 v3).
  { unfold screen_dxy, screen_dx, screen_dy, screenCoord.
    rewrite <- Hp, <- Hs. f_equal. f_equal; apply sub_swap_square. }
  rewrite Hura, Hurb, Hra, Hrb, Hdxy, Hr. by split.
Qed.

End Swap.

(** *** The degenerate projection, and the sign of the angle *)

Section CalibrationEdges.

Local Open Scope float_scope.

Lemma mul_zero_l z m :
  (z =? 0) = true -> (neg_infinity <? m) = true -> (m <=? 1) = true ->
  (z * m =? 0) = true.
Proof.
  intros [s Hz]%eqb_zero_Prim2SF.
  rewrite FloatAxioms.ltb_spec, FloatAxioms.leb_spec. intros Hlo Hhi.
  assert (exists s', Prim2SF (z * m) = S754_zero s') as [s' Hs'].
  { rewrite mul_spec, Hz. change (Prim2SF neg_infinity) with (S754_infinity true) in Hlo.
    change (Prim2SF 1) with (S754_finite false 4503599627370496 (-52)) in Hhi.
    destruct (Prim2SF m) as [sm|[]| |sm mm em]; try done; simpl; eauto. }
  by apply eqb_zero_of_Prim2SF with s'.
Qed.

Lemma div_2_zero z : (z =? 0) = true -> (z / 2 =? 0) = true.
Proof.
  intros [s Hz]%eqb_zero_Prim2SF.
  apply eqb_zero_of_Prim2SF with s. rewrite div_spec, Hz. by destruct s.
Qed.

Lemma Math_min_1_bounds s :
  (neg_infinity <? s) = true ->
  (neg_infinity <? Math_min [1; s]) = true /\ (Math_min [1; s] <=? 1) = true.
Proof.
  intros Hs. destruct (ltb_not_nan _ _ Hs) as [_ Hn].
  split; [|by apply Math_min_1_at_most_1].
  rewrite Math_min_1, Hn. by destruct (s <? 1).
Qed.

Variable Math_acos : float -> float.
Hypothesis Math_acos_conforms : acos_conforms Math_acos.

(** X14. The radius at a degenerate projection.  When the two projected
    reference points coincide ([dxy] is zero) and the radius scale is a
    number other than -Infinity, the radius that is computed and published
    is zero: unlike the angle, it needs no guard. *)
Theorem degenerate_projection_zero_radius this v0 v3 :
  reference this = Some (v0, v3) ->
  dataChanged (state this) || viewportChanged (state this) = true ->
  (screen_dxy this v0 v3 =? 0) = true ->
  (neg_infinity <? this_radius this) = true ->
  exists this' r,
    updateLayer Math_acos this = Normal this' /\
    radius (state this') = Some r /\
    uniforms (state this') !! "radius" = Some (Some r) /\
    (r =? 0) = true.
Proof.
  intros Href Hflag Hzero Hs.
  destruct (updateLayer_calibration Math_acos this v0 v3 Href Hflag)
    as (this' & Hup & Hr & _ & Hur & _).
  exists this'. eexists. split; [exact Hup|]. split; [exact Hr|].
  split; [by rewrite Hur, Hr|]. unfold radius_for.
  destruct (Math_min_1_bounds _ Hs) as [Hlo Hhi].
  by apply mul_zero_l; [apply div_2_zero| |].
Qed.

(** X15. The sign of the angle.  When the quotient [dx / dxy] is a number
    between -1 and 1, the angle that is computed and published turns
    against [dy]: it lies between +0 and [Math.PI] when [dy] is negative,
    and between [-Math.PI] and -0 when [dy] is positive. *)
Theorem angle_sign_against_dy this v0 v3 :
  reference this = Some (v0, v3) ->
  dataChanged (state this) || viewportChanged (state this) = true ->
  (-1 <=? screen_dx this v0 v3 / screen_dxy this v0 v3) = true ->
  (screen_dx this v0 v3 / screen_dxy this v0 v3 <=? 1) = true ->
  exists this' a,
    updateLayer Math_acos this = Normal this' /\
    angle (state this') = Some a /\
    uniforms (state this') !! "angle" = Some (Some a) /\
    ((screen_dy this v0 v3 <? 0) = true ->
     (0 <=? a) = true /\ (a <=? Math_PI) = true) /\
    ((0 <? screen_dy this v0 v3) = true ->
     (- Math_PI <=? a) = true /\ (a <=? 0) = true).
Proof using Math_acos_conforms.
  intros Href Hflag Hlo Hhi.
  destruct (updateLayer_calibration Math_acos this v0 v3 Href Hflag)
    as (this' & Hup & _ & Ha & _ & Hua).
  exists this'. eexists. split; [exact Hup|]. split; [exact Ha|].
  split; [by rewrite Hua, Ha|].
  destruct (acos_inside Math_acos Math_acos_conforms _ Hlo Hhi) as [H0 H1].
  unfold angle_for. split.
  - intros Hdy. rewrite (Math_sign_negative _ Hdy).
    change (- -1) with 1. by rewrite mul_1_r.
  - intros Hdy. rewrite (Math_sign_positive _ Hdy), mul_opp_1_r. split.
    + by apply leb_opp.
    + apply leb_trans with (-0); [by apply leb_opp|done].
Qed.

End CalibrationEdges.

(** *** The constructor *)

(** X12. Options against defaults.  The base constructor receives every
    own property of [opts] as it was given, even one whose value is
    [undefined]; [dotRadius] is 10 and [elevation] is 101 only when [opts]
    has no such property; nothing else is added.  Without an options object
    the base constructor is called with the two defaults alone, and then
    reading the callbacks throws a [TypeError]. *)
Theorem constructor_defaults :
  (forall opts, exists super_opts,
     constructor (Some opts) =
       Constructed super_opts (Get opts "onHexagonHovered")
         (Get opts "onHexagonClicked") /\
     (forall k v, opts !! k = Some v -> super_opts !! k = Some v) /\
     (opts !! "dotRadius" = None ->
      super_opts !! "dotRadius" = Some (Number 10)) /\
     (opts !! "elevation" = None ->
      super_opts !! "elevation" = Some (Number 101)) /\
     (forall k, k <> "dotRadius" -> k <> "elevation" ->
        super_opts !! k = opts !! k)) /\
  (exists super_opts,
     constructor None = ConstructionThrow TypeError super_opts /\
     super_opts !! "dotRadius" = Some (Number 10) /\
     super_opts !! "elevation" = Some (Number 101) /\
     (forall k, k <> "dotRadius" -> k <> "elevation" -> super_opts !! k = None)).
Proof.
  split.
  - intros opts. eexists. split; [reflexivity|]. split; [|split; [|split]].
    + intros k v Hk. by apply lookup_union_Some_l.
    + intros Hk. rewrite lookup_union_r by done. by simplify_map_eq.
    + intros Hk. rewrite lookup_union_r by done. by simplify_map_eq.
    + intros k H1 H2. rewrite lookup_union_l; [done|]. by simplify_map_eq.
  - eexists. split; [reflexivity|]. cbn [default].
    split; [|split]; try intros k H1 H2; rewrite lookup_union_r by done;
      by simplify_map_eq.
Qed.

(** *** The primitive *)

Section GetPrimitiveFacts.

Variables Math_cos Math_sin : float -> float.

Local Open Scope float_scope.

(** X13. The instanced mesh.  With seven units of fuel or more the loop of
    [getPrimitive] ends after six rounds, and the primitive is a
    triangle fan of six vertices in a [Float32Array] of 18 elements: vertex
    [i] is the cosine and the sine of [PI2 * i / 6], rounded to single
    precision, and a third coordinate that is +0.  Where the host obeys
    ECMAScript at +0, the first vertex is exactly (1, 0, 0). *)
Theorem getPrimitive_fan fuel this_id :
  7 <= fuel ->
  exists p,
    getPrimitive Math_cos Math_sin fuel this_id = Some p /\
    Primitive.id p = this_id /\
    Primitive.drawType p = "TRIANGLE_FAN" /\
    Primitive.instanced p = true /\
    length (Primitive.vertices p) = 18%nat /\
    Primitive.vertices p =
      Float32Array_from
        (i ← [0; 1; 2; 3; 4; 5];
         [Math_cos (PI2 * i / NUM_SEGMENTS);
          Math_sin (PI2 * i / NUM_SEGMENTS); 0]) /\
    (forall k, k < 6 -> Primitive.vertices p !! (k * 3 + 2)%nat = Some 0) /\
    (trig_conforms Math_cos Math_sin ->
     take 3 (Primitive.vertices p) = [1; 0; 0]).
Proof.
  intros Hfuel.
  do 7 (destruct fuel as [|fuel]; [lia|]).
  eexists. split; [reflexivity|]. split; [reflexivity|].
  split; [reflexivity|]. split; [reflexivity|]. split; [reflexivity|].
  split; [reflexivity|]. split.
  - intros k Hk. do 6 (destruct k as [|k]; [reflexivity|]). lia.
  - intros [Hcos Hsin]. cbn.
    change (PI2 * 0 / NUM_SEGMENTS) with 0.
    by rewrite Hcos, Hsin.
Qed.

End GetPrimitiveFacts.

(** ** The properties at concrete inputs *)

Section Examples.

Local Open Scope float_scope.

Ltac run := vm_compute; reflexivity.

Lemma degenerate_projection_publishes_NaN_witness :
  reference layer_degenerate = Some ((5, 7), (5, 7)) /\
  dataChanged (state layer_degenerate) || viewportChanged (state layer_degenerate) = true /\
  (screen_dxy layer_degenerate (5, 7) (5, 7) =? 0) = true /\
  exists this',
    updateLayer acos_host layer_degenerate = Normal this' /\
    angle (state this') = Some nan /\
    uniforms (state this') !! "angle" = Some (Some nan).
Proof.
  split; [run|]. split; [run|]. split; [run|].
  apply (degenerate_projection_publishes_NaN acos_host acos_host_conforms
           layer_degenerate (5, 7) (5, 7)); run.
Defined.


Lemma fill_values_witness :
  data (props layer_8) = Some [hexagon_8] /\
  _numInstances layer_8 = length [hexagon_8] /\
  exists built p c,
    allocate_and_fill layer_8 = Normal built /\
    positions (state built) = Some p /\
    colors (state built) = Some c /\
    p !! 0%nat = Some 1 /\ p !! 1%nat = Some 2 /\ p !! 2%nat = Some 101 /\
    c !! 0%nat = Some 10 /\ c !! 1%nat = Some 20 /\ c !! 2%nat = Some 30.
Proof.
  split; [reflexivity|]. split; [reflexivity|].
  destruct (fill_values layer_8 [hexagon_8] eq_refl eq_refl)
    as (built & p & c & Hb & Hp & Hc & Hall).
  destruct (Hall 0%nat hexagon_8 eq_refl) as (P0 & P1 & P2 & C0 & C1 & C2 & _).
  exists built, p, c.
  split; [exact Hb|]. split; [exact Hp|]. split; [exact Hc|].
  split; [exact P0|]. split; [exact P1|]. split; [exact P2|].
  split; [exact C0|]. split; [exact C1|exact C2].
Defined.

Lemma radius_clamped_witness :
  reference layer_8 = Some ((0, 0), (1, 0)) /\
  dataChanged (state layer_8) || viewportChanged (state layer_8) = true /\
  exists this',
    updateLayer acos_host layer_8 = Normal this' /\
    radius (state this') = Some 0x1p-1 /\
    uniforms (state this') !! "radius" = Some (Some 0x1p-1).
Proof.
  split; [run|]. split; [run|].
  destruct (radius_clamped acos_host layer_8 (0, 0) (1, 0)) as [(this' & Hup & Hr & Hu) _];
    [run|run|].
  exists this'. split; [exact Hup|]. split; assumption.
Defined.

Lemma short_vertices_throw_in_calibration_witness :
  data (props layer_short) = Some [hexagon_short] /\
  length (vertices hexagon_short) < 4 /\
  dataChanged (state layer_short) = true /\
  updateLayer acos_host layer_short =
    Throw TypeError (rebuilt layer_short [hexagon_short]).
Proof.
  assert (Hlen : length (vertices hexagon_short) < 4) by (simpl; lia).
  split; [reflexivity|]. split; [exact Hlen|]. split; [reflexivity|].
  destruct (short_vertices_throw_in_calibration acos_host layer_short
              hexagon_short [] eq_refl) as [Hshort _].
  destruct (Hshort Hlen) as (_ & Hdata & _).
  destruct (Hdata eq_refl) as [Hup _]. exact Hup.
Defined.

Lemma empty_dataset_witness :
  data (props layer_emptied) = Some [] /\
  _numInstances layer_emptied = 0%nat /\
  exists this',
    updateLayer acos_host layer_emptied = Normal this' /\
    radius (state this') = Some 0x1p-1 /\
    angle (state this') = Some (-0).
Proof.
  split; [reflexivity|]. split; [reflexivity|].
  destruct (empty_dataset acos_host layer_emptied eq_refl eq_refl)
    as (_ & _ & this' & Hup & Hr & Ha).
  exists this'. split; [exact Hup|]. split; assumption.
Defined.

Lemma updateLayer_idempotent_witness :
  updateLayer acos_host layer_8 =
    Normal (completed (updateLayer acos_host layer_8)) /\
  updateLayer acos_host (completed (updateLayer acos_host layer_8)) =
    Normal (publish (completed (updateLayer acos_host layer_8))) /\
  publish (completed (updateLayer acos_host layer_8)) =
    completed (updateLayer acos_host layer_8) /\
  published (completed (updateLayer acos_host layer_8)).
Proof.
  assert (H : updateLayer acos_host layer_8 =
              Normal (completed (updateLayer acos_host layer_8))) by run.
  split; [exact H|].
  destruct (updateLayer_idempotent acos_host layer_8 _ H) as (H1 & H2 & H3 & _).
  split; [exact H1|]. split; [exact H2|exact H3].
Defined.

Lemma allocate_and_fill_buffers_witness :
  data (props layer_8) = Some [hexagon_8] /\
  _numInstances layer_8 = length [hexagon_8] /\
  unpickable_clean layer_8 /\
  exists built p c,
    allocate_and_fill layer_8 = Normal built /\
    positions (state built) = Some p /\ length p = 3%nat /\
    colors (state built) = Some c /\ length c = 3%nat /\
    (is_Some (pickingColors (state built)) <-> isPickable layer_8 = true).
Proof.
  assert (Hclean : unpickable_clean layer_8) by (intros _; split; reflexivity).
  split; [reflexivity|]. split; [reflexivity|]. split; [exact Hclean|].
  destruct (allocate_and_fill_buffers layer_8 [hexagon_8] eq_refl eq_refl Hclean)
    as (built & p & c & Hb & Hp & Hlp & Hc & Hlc & Hpk & _).
  exists built, p, c.
  split; [exact Hb|]. split; [exact Hp|]. split; [exact Hlp|].
  split; [exact Hc|]. split; [exact Hlc|exact Hpk].
Defined.

Lemma updateLayer_in_bounds_witness :
  in_bounds layer_8 /\
  (0 <=? this_radius layer_8) = true /\
  updateLayer acos_host layer_8 =
    Normal (completed (updateLayer acos_host layer_8)) /\
  in_bounds (completed (updateLayer acos_host layer_8)) /\
  uniforms (state (completed (updateLayer acos_host layer_8))) !! "radius" =
    Some (radius (state (completed (updateLayer acos_host layer_8)))).
Proof.
  assert (Hin : in_bounds layer_8) by (split; intros ? [=]).
  assert (H : updateLayer acos_host layer_8 =
              Normal (completed (updateLayer acos_host layer_8))) by run.
  split; [exact Hin|]. split; [run|]. split; [exact H|].
  destruct (updateLayer_in_bounds acos_host acos_host_conforms layer_8
              (completed (updateLayer acos_host layer_8)) Hin)
    as (Hb & Hr & _); [|exact H|split; [exact Hb|exact Hr]].
  intros v0 v3 Href. vm_compute in Href. injection Href as <- <-.
  split; [run|]. split; run.
Defined.

Lemma level_reference_zero_angle_witness :
  reference layer_8 = Some ((0, 0), (1, 0)) /\
  (screen_dy layer_8 (0, 0) (1, 0) =? 0) = true /\
  (screen_dx layer_8 (0, 0) (1, 0) / screen_dxy layer_8 (0, 0) (1, 0) =? -1) = true /\
  exists this' a,
    updateLayer acos_host layer_8 = Normal this' /\
    angle (state this') = Some a /\ (a =? 0) = true /\
    uniforms (state this') !! "angle" = Some (Some a).
Proof.
  split; [run|]. split; [run|]. split; [run|].
  destruct (level_reference_zero_angle acos_host acos_host_conforms
              layer_8 (0, 0) (1, 0)) as (this' & a & Hup & Ha & Hz & _ & Hu);
    [run|run|run|run|run|].
  exists this', a.
  split; [exact Hup|]. split; [exact Ha|]. split; [exact Hz|exact Hu].
Defined.

Lemma fill_rounds_to_single :
  exists built p c,
    allocate_and_fill layer_tenth = Normal built /\
    positions (state built) = Some p /\ colors (state built) = Some c /\
    p !! 0%nat = Some 0x1.99999ap-4 /\
    c !! 0%nat = Some 0x1.99999ap-4 /\
    x (centroid hexagon_tenth) = 0x1.999999999999ap-4 /\
    color hexagon_tenth !! 0%nat = Some 0x1.999999999999ap-4 /\
    (0x1.99999ap-4 =? 0x1.999999999999ap-4) = false.
Proof.
  exists (rebuilt layer_tenth [hexagon_tenth]).
  exists [0x1.99999ap-4; 2; 101], [0x1.99999ap-4; 20; 30].
  split; [by apply allocate_and_fill_rebuilt|].
  split; [run|]. split; [run|]. split; [run|]. split; [run|].
  split; [run|]. split; run.
Qed.

Lemma short_vertices_not_validated :
  (length (vertices hexagon_short) = 3%nat /\
   In hexagon_short [hexagon_8; hexagon_short] /\
   updateLayer acos_host layer_short_second =
     Normal (completed (updateLayer acos_host layer_short_second)) /\
   uniforms (state (completed (updateLayer acos_host layer_short_second)))
     !! "radius" = Some (Some 0x1p-1) /\
   dataChanged (state (completed (updateLayer acos_host layer_short_second))) =
     false) /\
  (updateLayer acos_host layer_short =
     Throw TypeError (rebuilt layer_short [hexagon_short]) /\
   positions (state layer_short) = None /\
   positions (state (rebuilt layer_short [hexagon_short])) = Some [1; 2; 101] /\
   colors (state (rebuilt layer_short [hexagon_short])) = Some [10; 20; 30]).
Proof.
  split.
  - split; [reflexivity|]. split; [right; left; reflexivity|].
    split; [run|]. split; run.
  - split; [run|]. split; [run|]. split; run.
Qed.

Lemma negative_scale_negative_radius :
  in_bounds layer_negative /\
  updateLayer acos_host layer_negative =
    Normal (completed (updateLayer acos_host layer_negative)) /\
  radius (state (completed (updateLayer acos_host layer_negative))) =
    Some (-0x1p-1) /\
  uniforms (state (completed (updateLayer acos_host layer_negative))) !! "radius" =
    Some (Some (-0x1p-1)) /\
  (-0x1p-1 <? 0) = true /\ (0 <=? -0x1p-1) = false.
Proof.
  split; [split; intros ? [=]|].
  split; [run|]. split; [run|]. split; [run|]. split; run.
Qed.

Lemma level_reference_underflow_NaN :
  reference layer_underflow = Some ((0x1.0cccccccccccdp-537, 0), (0, 0)) /\
  (screen_dy layer_underflow (0x1.0cccccccccccdp-537, 0) (0, 0) =? 0) = true /\
  (screen_dxy layer_underflow (0x1.0cccccccccccdp-537, 0) (0, 0) =? 0) = false /\
  (0 <? screen_dx layer_underflow (0x1.0cccccccccccdp-537, 0) (0, 0)) = true /\
  (1 <? screen_dx layer_underflow (0x1.0cccccccccccdp-537, 0) (0, 0)
        / screen_dxy layer_underflow (0x1.0cccccccccccdp-537, 0) (0, 0)) = true /\
  (forall acos, acos_conforms acos ->
   exists this',
     updateLayer acos layer_underflow = Normal this' /\
     angle (state this') = Some nan /\
     uniforms (state this') !! "angle" = Some (Some nan)).
Proof.
  split; [run|]. split; [run|]. split; [run|]. split; [run|]. split; [run|].
  intros acos Hacos.
  destruct (updateLayer_calibration acos layer_underflow
              (0x1.0cccccccccccdp-537, 0) (0, 0))
    as (this' & Hup & _ & Ha & _ & Hua); [run|run|].
  exists this'. split; [exact Hup|].
  assert (Hnan : angle_for acos
            (screen_dx layer_underflow (0x1.0cccccccccccdp-537, 0) (0, 0))
            (screen_dy layer_underflow (0x1.0cccccccccccdp-537, 0) (0, 0))
            (screen_dxy layer_underflow (0x1.0cccccccccccdp-537, 0) (0, 0)) = nan).
  { unfold angle_for. rewrite (acos_outside acos Hacos); [apply mul_nan_l|run]. }
  rewrite Hua, Ha, Hnan. split; reflexivity.
Qed.

Lemma updateLayer_missing_data_witness :
  data (props layer_missing) = None /\
  dataChanged (state layer_missing) = true /\
  updateLayer acos_host layer_missing = Throw TypeError (allocated layer_missing) /\
  positions (state (allocated layer_missing)) = Some [0; 0; 0; 0; 0; 0] /\
  uniforms (state (allocated layer_missing)) = uniforms (state layer_missing).
Proof.
  split; [reflexivity|]. split; [reflexivity|].
  destruct (updateLayer_missing_data acos_host layer_missing eq_refl) as [H _].
  destruct (H eq_refl) as (Hup & Hp & _ & _ & Hu & _).
  split; [exact Hup|]. split; [exact Hp|exact Hu].
Defined.

Lemma fill_within_allocation_witness :
  data (props layer_one_of_two) = Some [hexagon_8; hexagon_degenerate] /\
  _numInstances layer_one_of_two = 1%nat /\
  exists built p c,
    allocate_and_fill layer_one_of_two = Normal built /\
    positions (state built) = Some p /\ colors (state built) = Some c /\
    length p = 3%nat /\ length c = 3%nat /\
    p !! 0%nat = Some 1 /\ p !! 1%nat = Some 2 /\ p !! 2%nat = Some 101 /\
    p !! 3%nat = None.
Proof.
  split; [reflexivity|]. split; [reflexivity|].
  destruct (fill_within_allocation layer_one_of_two
              [hexagon_8; hexagon_degenerate] eq_refl)
    as (built & p & c & Hb & Hp & Hc & Hlp & Hlc & Hin & _ & Hout).
  destruct (Hin 0%nat hexagon_8 eq_refl) as (P0 & P1 & P2 & _);
    [repeat constructor|].
  destruct (Hout 3%nat) as [P3 _]; [repeat constructor|].
  exists built, p, c.
  split; [exact Hb|]. split; [exact Hp|]. split; [exact Hc|].
  split; [exact Hlp|]. split; [exact Hlc|].
  split; [exact P0|]. split; [exact P1|]. split; [exact P2|exact P3].
Defined.

Lemma missing_channel_stored_as_NaN_witness :
  data (props layer_two_channels) = Some [hexagon_two_channels] /\
  color hexagon_two_channels !! 2%nat = None /\
  exists built c,
    allocate_and_fill layer_two_channels = Normal built /\
    colors (state built) = Some c /\
    c !! 2%nat = Some nan.
Proof.
  split; [reflexivity|]. split; [reflexivity|].
  apply (missing_channel_stored_as_NaN layer_two_channels
           [hexagon_two_channels] 0 hexagon_two_channels 2);
    try reflexivity; repeat constructor.
Defined.

Lemma updateLayer_own_keys_witness :
  updateLayer acos_host layer_stale_picking =
    Normal (completed (updateLayer acos_host layer_stale_picking)) /\
  uniforms (state layer_stale_picking) !! "opacity" = Some (Some 1) /\
  uniforms (state (completed (updateLayer acos_host layer_stale_picking)))
    !! "opacity" = uniforms (state layer_stale_picking) !! "opacity".
Proof.
  assert (H : updateLayer acos_host layer_stale_picking =
              Normal (completed (updateLayer acos_host layer_stale_picking)))
    by run.
  split; [exact H|]. split; [run|].
  destruct (updateLayer_own_keys acos_host layer_stale_picking _ H) as [Hu _].
  apply Hu; discriminate.
Defined.

Lemma updateLayer_not_pickable_witness :
  isPickable layer_stale_picking = false /\
  pickingColors (state layer_stale_picking) = Some [7; 8; 9] /\
  pickingColors (state (completed (updateLayer acos_host layer_stale_picking))) =
    pickingColors (state layer_stale_picking) /\
  attributes (state (completed (updateLayer acos_host layer_stale_picking)))
    !! "pickingColors" =
    attributes (state layer_stale_picking) !! "pickingColors".
Proof.
  split; [reflexivity|]. split; [reflexivity|].
  exact (updateLayer_not_pickable acos_host layer_stale_picking eq_refl).
Defined.

Lemma angle_opposes_dy_witness :
  reference layer_rising = Some ((0, 4), (3, 0)) /\
  (0 <? screen_dy layer_rising (0, 4) (3, 0)) = true /\
  exists this' a,
    updateLayer acos_host layer_rising = Normal this' /\
    angle (state this') = Some a /\
    a = - acos_host (screen_dx layer_rising (0, 4) (3, 0)
                     / screen_dxy layer_rising (0, 4) (3, 0)).
Proof.
  split; [run|]. split; [run|].
  destruct (angle_opposes_dy acos_host layer_rising (0, 4) (3, 0))
    as (this' & a & Hup & Ha & _ & _ & Hpos); [run|run|].
  exists this', a. split; [exact Hup|]. split; [exact Ha|].
  apply Hpos. run.
Defined.

Lemma NaN_scale_NaN_radius_witness :
  reference layer_NaN_scale = Some ((0, 0), (1, 0)) /\
  is_nan (this_radius layer_NaN_scale) = true /\
  exists this',
    updateLayer acos_host layer_NaN_scale = Normal this' /\
    radius (state this') = Some nan /\
    uniforms (state this') !! "radius" = Some (Some nan).
Proof.
  split; [run|]. split; [run|].
  apply (NaN_scale_NaN_radius acos_host layer_NaN_scale (0, 0) (1, 0)); run.
Defined.

Lemma radius_at_most_half_pitch_witness :
  reference layer_8 = Some ((0, 0), (1, 0)) /\
  screen_dxy layer_8 (0, 0) (1, 0) / 2 = 0x1p-1 /\
  exists this' r,
    updateLayer acos_host layer_8 = Normal this' /\
    radius (state this') = Some r /\
    (screen_dxy layer_8 (0, 0) (1, 0) / 2 <? r) = false.
Proof.
  split; [run|]. split; [run|].
  destruct (radius_at_most_half_pitch acos_host layer_8 (0, 0) (1, 0))
    as (this' & r & Hup & Hr & _ & Hle & _); [run|run|].
  exists this', r. split; [exact Hup|]. split; [exact Hr|exact Hle].
Defined.

Lemma calibration_reads_reference_only_witness :
  reference layer_8 = Some ((0, 0), (1, 0)) /\
  reference layer_short_second = Some ((0, 0), (1, 0)) /\
  exists a' b',
    updateLayer acos_host layer_8 = Normal a' /\
    updateLayer acos_host layer_short_second = Normal b' /\
    radius (state a') = radius (state b') /\
    angle (state a') = angle (state b').
Proof.
  split; [run|]. split; [run|].
  destruct (calibration_reads_reference_only acos_host layer_8
              layer_short_second (0, 0) (1, 0))
    as (a' & b' & Ha & Hb & Hr & Hang & _);
    [run|run|reflexivity|reflexivity|reflexivity|run|run|].
  exists a', b'. split; [exact Ha|]. split; [exact Hb|].
  split; [exact Hr|exact Hang].
Defined.

Lemma radius_symmetric_witness :
  reference layer_rising = Some ((0, 4), (3, 0)) /\
  reference layer_falling = Some ((3, 0), (0, 4)) /\
  exists a' b',
    updateLayer acos_host layer_rising = Normal a' /\
    updateLayer acos_host layer_falling = Normal b' /\
    radius (state a') = radius (state b').
Proof.
  split; [run|]. split; [run|].
  destruct (radius_symmetric acos_host layer_rising layer_falling (0, 4) (3, 0))
    as (a' & b' & Ha & Hb & Hr & _);
    [run|run|reflexivity|reflexivity|reflexivity|run|run|].
  exists a', b'. split; [exact Ha|]. split; [exact Hb|exact Hr].
Defined.

Lemma getPrimitive_fan_witness :
  7 <= 7 /\
  trig_conforms cos_host sin_host /\
  exists p,
    getPrimitive cos_host sin_host 7 "hexagon" = Some p /\
    length (Primitive.vertices p) = 18%nat /\
    take 3 (Primitive.vertices p) = [1; 0; 0].
Proof.
  assert (Hhost : trig_conforms cos_host sin_host) by (split; run).
  split; [repeat constructor|]. split; [exact Hhost|].
  destruct (getPrimitive_fan cos_host sin_host 7 "hexagon")
    as (p & Hp & _ & _ & _ & Hlen & _ & _ & Hfirst); [repeat constructor|].
  exists p. split; [exact Hp|]. split; [exact Hlen|exact (Hfirst Hhost)].
Defined.

Lemma degenerate_projection_zero_radius_witness :
  reference layer_degenerate = Some ((5, 7), (5, 7)) /\
  (screen_dxy layer_degenerate (5, 7) (5, 7) =? 0) = true /\
  (neg_infinity <? this_radius layer_degenerate) = true /\
  exists this' r,
    updateLayer acos_host layer_degenerate = Normal this' /\
    radius (state this') = Some r /\ (r =? 0) = true.
Proof.
  split; [run|]. split; [run|]. split; [run|].
  destruct (degenerate_projection_zero_radius acos_host layer_degenerate
              (5, 7) (5, 7)) as (this' & r & Hup & Hr & _ & Hz);
    [run|run|run|run|].
  exists this', r. split; [exact Hup|]. split; [exact Hr|exact Hz].
Defined.

Lemma angle_sign_against_dy_witness :
  reference layer_rising = Some ((0, 4), (3, 0)) /\
  (0 <? screen_dy layer_rising (0, 4) (3, 0)) = true /\
  (screen_dx layer_rising (0, 4) (3, 0) / screen_dxy layer_rising (0, 4) (3, 0)
   =? -0x1.3333333333333p-1) = true /\
  exists this' a,
    updateLayer acos_host layer_rising = Normal this' /\
    angle (state this') = Some a /\
    (- Math_PI <=? a) = true /\ (a <=? 0) = true.
Proof.
  split; [run|]. split; [run|]. split; [run|].
  destruct (angle_sign_against_dy acos_host acos_host_conforms layer_rising
              (0, 4) (3, 0)) as (this' & a & Hup & Ha & _ & _ & Hpos);
    [run|run|run|run|].
  destruct Hpos as [Hlo Hhi]; [run|].
  exists this', a. split; [exact Hup|]. split; [exact Ha|].
  split; [exact Hlo|exact Hhi].
Defined.

End Examples.
